(** * consulate.api.acl: the Consul ACL endpoint, embedded in Rocq

    The module under study is [consulate/api/acl.py].  It holds three
    module-level helpers ([__check_policylinks], [__check_service_identities],
    [__create_json_format]) and the class [ACL(base.Endpoint)], whose methods
    build a request, hand it to the transport inherited from [base.Endpoint]
    and read the answer.

    The development has three parts.  Part I embeds the Python values the
    module handles, the builtins it calls ([in], [str], [json.dumps],
    subscripting, truth testing), the exceptions it raises and the functions
    of the module, each next to the source lines it renders.  Part II states
    and proves the properties C1 to C10; Part III adds further properties of
    the same functions, X2 to X11. *)

From Stdlib Require Import String Ascii List ZArith NArith Bool Lia.
From Stdlib Require Import DecimalString DecimalFacts DecimalPos.
Import ListNotations.

Set Warnings "-register-all".

Open Scope list_scope.
Open Scope string_scope.

(* ================================================================== *)
(** * Part I: the embedding *)
(* ================================================================== *)

(** ** Characters the printers need *)

Definition dquote : ascii := "034"%char.
Definition squote : ascii := "039"%char.
Definition backslash : ascii := "092"%char.
Definition char_tab : ascii := "009"%char.
Definition char_lf : ascii := "010"%char.
Definition char_cr : ascii := "013"%char.
Definition char_bs : ascii := "008"%char.
Definition char_ff : ascii := "012"%char.

(** One lowercase hexadecimal digit, as [format(n, 'x')] prints it. *)
Definition hexdigit (n : N) : ascii :=
  if (n <? 10)%N then ascii_of_N (48 + n) else ascii_of_N (87 + n).

(** The two hexadecimal digits of a code point below 256. *)
Definition hex2 (c : ascii) : string :=
  let n := N_of_ascii c in
  String (hexdigit (n / 16)) (String (hexdigit (n mod 16)) EmptyString).

(** ** Python values

    The values that flow through the module are the JSON-shaped ones: the
    PolicyLink and ServiceIdentity mappings ([Dict[str, str]] and
    [Dict[str, Union[str, List[str]]]] in the module's own comments), lists
    of them, and response bodies decoded by the transport.

    A [str] is a [string] whose characters are code points below 256.  A
    [dict] is an association list in insertion order, the order in which
    Python iterates, prints and serialises it; its keys are strings and, in a
    well-formed dict ([wf_value]), pairwise different. *)
Module Py.

Inductive pyval : Type :=
| PyNone : pyval
| PyBool : bool -> pyval
| PyInt : Z -> pyval
| PyStr : string -> pyval
| PyList : list pyval -> pyval
| PyDict : list (string * pyval) -> pyval.

Definition pydict : Type := list (string * pyval).

(** [bool(v)], the test behind [if v] and [not v]. *)
Definition truthy (v : pyval) : bool :=
  match v with
  | PyNone => false
  | PyBool b => b
  | PyInt z => negb (z =? 0)%Z
  | PyStr s => negb (String.eqb s EmptyString)
  | PyList l => match l with [] => false | _ :: _ => true end
  | PyDict d => match d with [] => false | _ :: _ => true end
  end.

(** [k in d] for a dict [d]. *)
Definition contains (k : string) (d : pydict) : bool :=
  existsb (fun kv => String.eqb (fst kv) k) d.

(** [d.get(k)]: the value bound to [k], if any. *)
Fixpoint lookup (k : string) (d : pydict) : option pyval :=
  match d with
  | [] => None
  | (k', v) :: d' => if String.eqb k' k then Some v else lookup k d'
  end.

(** [d[k] = v]: an existing key keeps its place and takes the new value, a
    new key goes last. *)
Fixpoint setitem (d : pydict) (k : string) (v : pyval) : pydict :=
  match d with
  | [] => [(k, v)]
  | (k', v') :: d' =>
      if String.eqb k' k then (k', v) :: d' else (k', v') :: setitem d' k v
  end.

(** [dict(pairs)]. *)
Definition dict_of_pairs (pairs : list (string * pyval)) : pydict :=
  fold_left (fun d kv => setitem d (fst kv) (snd kv)) pairs [].

(** Keys of a dict, in order. *)
Definition keys (d : pydict) : list string := map fst d.

(** Decimal text of an integer, as [repr] and [json.dumps] print it. *)
Definition int_text (z : Z) : string := NilZero.string_of_int (Z.to_int z).

(** *** [repr] and [str]

    [repr] of a str picks the quote (a double quote only when the text has a
    single quote and no double quote), escapes the quote and the backslash,
    writes tab, line feed and carriage return as [\t], [\n], [\r], and any
    other non-printable code point as [\xNN]. *)
Definition has_char (c : ascii) (s : string) : bool :=
  existsb (Ascii.eqb c) (list_ascii_of_string s).

Definition repr_quote (s : string) : ascii :=
  if has_char squote s && negb (has_char dquote s) then dquote else squote.

(** Printable code points below 256: the ASCII range from space to tilde,
    and the Latin-1 range without its controls (128..159), the no-break space
    (160) and the soft hyphen (173). *)
Definition printable (c : ascii) : bool :=
  let n := N_of_ascii c in
  ((32 <=? n) && (n <? 127) || (161 <=? n) && negb (n =? 173))%N.

Definition repr_char (q c : ascii) : string :=
  if Ascii.eqb c q || Ascii.eqb c backslash then String backslash (String c EmptyString)
  else if Ascii.eqb c char_tab then String backslash "t"
  else if Ascii.eqb c char_lf then String backslash "n"
  else if Ascii.eqb c char_cr then String backslash "r"
  else if printable c then String c EmptyString
  else String backslash (String "x" (hex2 c)).

Definition repr_str (s : string) : string :=
  let q := repr_quote s in
  String q (String.concat EmptyString (map (repr_char q) (list_ascii_of_string s))
            ++ String q EmptyString).

(** [", ".join(items)]. *)
Definition join_comma (items : list string) : string := String.concat ", " items.

Fixpoint repr (v : pyval) : string :=
  match v with
  | PyNone => "None"
  | PyBool true => "True"
  | PyBool false => "False"
  | PyInt z => int_text z
  | PyStr s => repr_str s
  | PyList l => "[" ++ join_comma (map repr l) ++ "]"
  | PyDict d =>
      "{" ++ join_comma (map (fun kv => repr_str (fst kv) ++ ": " ++ repr (snd kv)) d) ++ "}"
  end.

(** [str(v)]: the text itself for a str, [repr] for every other value. *)
Definition str (v : pyval) : string :=
  match v with
  | PyStr s => s
  | _ => repr v
  end.

End Py.
Export Py.

(** ** The [json] module of the standard library

    [json.dumps(obj)] with its defaults: items separated by a comma and a
    space, keys from values by a colon and a space, keys in dict order, and
    [ensure_ascii], under which a str keeps the characters from space to
    tilde and escapes everything else.  [json.loads] is the matching decoder.
    Floats are outside [pyval]: the decoder gives no value on a number with a
    fraction or an exponent, and none on a [\uXXXX] escape of a code point
    past 255. *)
Module Json.

(** The escape of one character of a str ([ESCAPE_ASCII] and [ESCAPE_DCT] of
    [json.encoder]). *)
Definition escape_char (c : ascii) : string :=
  if Ascii.eqb c dquote then String backslash (String dquote EmptyString)
  else if Ascii.eqb c backslash then String backslash (String backslash EmptyString)
  else if Ascii.eqb c char_lf then String backslash "n"
  else if Ascii.eqb c char_cr then String backslash "r"
  else if Ascii.eqb c char_tab then String backslash "t"
  else if Ascii.eqb c char_ff then String backslash "f"
  else if Ascii.eqb c char_bs then String backslash "b"
  else if ((32 <=? N_of_ascii c) && (N_of_ascii c <=? 126))%N then String c EmptyString
  else String backslash ("u00" ++ hex2 c).

Fixpoint escape (s : string) : string :=
  match s with
  | EmptyString => EmptyString
  | String c s' => escape_char c ++ escape s'
  end.

(** A str between double quotes. *)
Definition dumps_str (s : string) : string :=
  String dquote (escape s ++ String dquote EmptyString).

Fixpoint dumps (v : pyval) : string :=
  match v with
  | PyNone => "null"
  | PyBool true => "true"
  | PyBool false => "false"
  | PyInt z => int_text z
  | PyStr s => dumps_str s
  | PyList l => "[" ++ join_comma (map dumps l) ++ "]"
  | PyDict d =>
      "{" ++ join_comma (map (fun kv => dumps_str (fst kv) ++ ": " ++ dumps (snd kv)) d) ++ "}"
  end.

(** *** The decoder *)

(** [WHITESPACE] of [json.decoder]: space, tab, line feed, carriage return. *)
Definition is_ws (c : ascii) : bool :=
  Ascii.eqb c " " || Ascii.eqb c char_tab || Ascii.eqb c char_lf || Ascii.eqb c char_cr.

Fixpoint skip_ws (s : string) : string :=
  match s with
  | EmptyString => EmptyString
  | String c s' => if is_ws c then skip_ws s' else s
  end.

(** Value of a hexadecimal digit, either case. *)
Definition hexval (c : ascii) : option N :=
  let n := N_of_ascii c in
  if ((48 <=? n) && (n <=? 57))%N then Some (n - 48)%N
  else if ((97 <=? n) && (n <=? 102))%N then Some (n - 87)%N
  else if ((65 <=? n) && (n <=? 70))%N then Some (n - 55)%N
  else None.

(** The character a one-letter escape stands for ([BACKSLASH] of
    [json.decoder]). *)
Definition unescape (e : ascii) : option ascii :=
  if Ascii.eqb e dquote then Some dquote
  else if Ascii.eqb e backslash then Some backslash
  else if Ascii.eqb e "/" then Some "/"%char
  else if Ascii.eqb e "b" then Some char_bs
  else if Ascii.eqb e "f" then Some char_ff
  else if Ascii.eqb e "n" then Some char_lf
  else if Ascii.eqb e "r" then Some char_cr
  else if Ascii.eqb e "t" then Some char_tab
  else None.

Definition cons_char (c : ascii) (r : option (string * string)) : option (string * string) :=
  match r with
  | Some (t, rest) => Some (String c t, rest)
  | None => None
  end.

(** [scanstring], strict: the text after an opening quote, up to the closing
    one; the decoded str and what follows it.  A raw control character, an
    unknown escape or a missing closing quote is an error. *)
Fixpoint scanstring (s : string) : option (string * string) :=
  match s with
  | EmptyString => None
  | String c s1 =>
      if Ascii.eqb c dquote then Some (EmptyString, s1)
      else if Ascii.eqb c backslash then
        match s1 with
        | EmptyString => None
        | String e s2 =>
            if Ascii.eqb e "u" then
              match s2 with
              | String h1 (String h2 (String h3 (String h4 s3))) =>
                  match hexval h1, hexval h2, hexval h3, hexval h4 with
                  | Some a, Some b, Some c', Some d =>
                      let n := (((a * 16 + b) * 16 + c') * 16 + d)%N in
                      if (n <? 256)%N then cons_char (ascii_of_N n) (scanstring s3)
                      else None
                  | _, _, _, _ => None
                  end
              | _ => None
              end
            else
              match unescape e with
              | Some c' => cons_char c' (scanstring s2)
              | None => None
              end
        end
      else if (N_of_ascii c <? 32)%N then None
      else cons_char c (scanstring s1)
  end.

Definition is_digit (c : ascii) : bool :=
  ((48 <=? N_of_ascii c) && (N_of_ascii c <=? 57))%N.

Fixpoint digits_value (s : string) (acc : Z) : Z * string :=
  match s with
  | EmptyString => (acc, EmptyString)
  | String c s' =>
      if is_digit c then digits_value s' (acc * 10 + (Z.of_N (N_of_ascii c) - 48))%Z
      else (acc, s)
  end.

(** The integer part of [NUMBER_RE]: a lone zero, or a non-zero digit and
    the digits after it. *)
Definition scan_int (s : string) : option (Z * string) :=
  match s with
  | EmptyString => None
  | String c s' =>
      if Ascii.eqb c "0" then Some (0%Z, s')
      else if is_digit c then Some (digits_value s 0%Z)
      else None
  end.

Definition starts_fraction (s : string) : bool :=
  match s with
  | EmptyString => false
  | String c _ => Ascii.eqb c "." || Ascii.eqb c "e" || Ascii.eqb c "E"
  end.

Definition scan_number (s : string) : option (pyval * string) :=
  let '(neg, s1) :=
    match s with
    | String c s' => if Ascii.eqb c "-" then (true, s') else (false, s)
    | EmptyString => (false, s)
    end in
  match scan_int s1 with
  | None => None
  | Some (z, r) =>
      if starts_fraction r then None
      else Some (PyInt (if neg then (- z)%Z else z), r)
  end.

(** [strip_prefix p s]: what follows [p] in [s], when [s] starts with [p]. *)
Fixpoint strip_prefix (p s : string) : option string :=
  match p, s with
  | EmptyString, _ => Some s
  | String a p', String b s' => if Ascii.eqb a b then strip_prefix p' s' else None
  | String _ _, EmptyString => None
  end.

Definition literal (p : string) (v : pyval) (s : string) : option (pyval * string) :=
  match strip_prefix p s with
  | Some r => Some (v, r)
  | None => None
  end.

(** [scan_once], [JSONArray] and [JSONObject] of [json.decoder].  [fuel]
    bounds the calls; a text needs no more than its length ([loads]). *)
Fixpoint parse_value (fuel : nat) (s : string) {struct fuel} : option (pyval * string) :=
  match fuel with
  | O => None
  | S f =>
      match s with
      | EmptyString => None
      | String c s' =>
          if Ascii.eqb c dquote then
            match scanstring s' with
            | Some (t, r) => Some (PyStr t, r)
            | None => None
            end
          else if Ascii.eqb c "[" then
            match skip_ws s' with
            | EmptyString => None
            | String c1 r1 =>
                if Ascii.eqb c1 "]" then Some (PyList [], r1)
                else
                  match parse_elements f (skip_ws s') with
                  | Some (l, r) => Some (PyList l, r)
                  | None => None
                  end
            end
          else if Ascii.eqb c "{" then
            match skip_ws s' with
            | EmptyString => None
            | String c1 r1 =>
                if Ascii.eqb c1 "}" then Some (PyDict [], r1)
                else
                  match parse_members f (skip_ws s') with
                  | Some (ps, r) => Some (PyDict (dict_of_pairs ps), r)
                  | None => None
                  end
            end
          else if Ascii.eqb c "n" then literal "null" PyNone s
          else if Ascii.eqb c "t" then literal "true" (PyBool true) s
          else if Ascii.eqb c "f" then literal "false" (PyBool false) s
          else scan_number s
      end
  end

with parse_elements (fuel : nat) (s : string) {struct fuel} : option (list pyval * string) :=
  match fuel with
  | O => None
  | S f =>
      match parse_value f s with
      | None => None
      | Some (v, s1) =>
          match skip_ws s1 with
          | EmptyString => None
          | String c s2 =>
              if Ascii.eqb c "," then
                match parse_elements f (skip_ws s2) with
                | Some (vs, r) => Some (v :: vs, r)
                | None => None
                end
              else if Ascii.eqb c "]" then Some ([v], s2)
              else None
          end
      end
  end

with parse_members (fuel : nat) (s : string) {struct fuel}
  : option (list (string * pyval) * string) :=
  match fuel with
  | O => None
  | S f =>
      match s with
      | EmptyString => None
      | String q s0 =>
          if negb (Ascii.eqb q dquote) then None
          else
            match scanstring s0 with
            | None => None
            | Some (k, s1) =>
                match skip_ws s1 with
                | EmptyString => None
                | String c s2 =>
                    if negb (Ascii.eqb c ":") then None
                    else
                      match parse_value f (skip_ws s2) with
                      | None => None
                      | Some (v, s3) =>
                          match skip_ws s3 with
                          | EmptyString => None
                          | String c' s4 =>
                              if Ascii.eqb c' "," then
                                match parse_members f (skip_ws s4) with
                                | Some (ps, r) => Some ((k, v) :: ps, r)
                                | None => None
                                end
                              else if Ascii.eqb c' "}" then Some ([(k, v)], s4)
                              else None
                          end
                      end
                end
            end
      end
  end.

(** [json.loads(s)]: one value, white space around it allowed, nothing
    else after it. *)
Definition loads (s : string) : option pyval :=
  match parse_value (S (String.length s)) (skip_ws s) with
  | Some (v, r) =>
      match skip_ws r with
      | EmptyString => Some v
      | String _ _ => None
      end
  | None => None
  end.

End Json.

(** ** Exceptions and computations

    The exceptions the module raises itself come from
    [consulate.exceptions]; [KeyError] and [TypeError] are the builtin ones
    a failed subscript raises.  [RequestError] stands for whatever else the
    transport reports. *)
Inductive exn : Type :=
| ACLPolicyFormatError : string -> exn
| Forbidden : pyval -> exn
| NotFound : pyval -> exn
| RequestError : Z -> pyval -> exn
| KeyError : string -> exn
| TypeError : exn.

(** The exceptions of [consulate.exceptions], as opposed to the builtin
    ones. *)
Definition is_consulate_exception (e : exn) : bool :=
  match e with
  | ACLPolicyFormatError _ | Forbidden _ | NotFound _ | RequestError _ _ => true
  | KeyError _ | TypeError => false
  end.

(** What a call ends in: a value, or an exception. *)
Inductive outcome (A : Type) : Type :=
| Return : A -> outcome A
| Raise : exn -> outcome A.

Arguments Return {A} _.
Arguments Raise {A} _.

(** A computation reads and changes the world outside the process (the
    remote service and whatever a callback touches): [W] is that world.  An
    exception ends the computation where it is raised, with the world as it
    stands there. *)
Definition M (W A : Type) : Type := W -> outcome A * W.

Definition ret {W A : Type} (a : A) : M W A := fun w => (Return a, w).

Definition raise {W A : Type} (e : exn) : M W A := fun w => (Raise e, w).

Definition bind {W A B : Type} (c : M W A) (k : A -> M W B) : M W B :=
  fun w =>
    match c w with
    | (Return a, w') => k a w'
    | (Raise e, w') => (Raise e, w')
    end.

(** A call that touches nothing outside. *)
Definition lift {W A : Type} (o : outcome A) : M W A := fun w => (o, w).

Declare Scope py_scope.
Delimit Scope py_scope with py.
Notation "x <- c ;; k" := (bind c (fun x => k))
  (at level 61, c at next level, right associativity) : py_scope.
Open Scope py_scope.

(** [v[k]] for a str [k]: the value under the key of a dict, [KeyError]
    when the dict has no such key, [TypeError] on a value that takes no str
    subscript. *)
Definition getitem (v : pyval) (k : string) : outcome pyval :=
  match v with
  | PyDict d =>
      match lookup k d with
      | Some x => Return x
      | None => Raise (KeyError k)
      end
  | _ => Raise TypeError
  end.

(** ** The module-level helpers of [consulate/api/acl.py] *)

(** [__check_policylinks(policies)], lines 21-32:
<<
    for policy in policies:
        if not ('ID' in policy or 'Name' in policy):
            raise exceptions.ACLPolicyFormatError(str(policy))
    return True
>> *)
Fixpoint __check_policylinks (policies : list pydict) : outcome bool :=
  match policies with
  | [] => Return true
  | policy :: rest =>
      if negb (contains "ID" policy || contains "Name" policy)
      then Raise (ACLPolicyFormatError (str (PyDict policy)))
      else __check_policylinks rest
  end.

(** [__check_service_identities(service_identities)], lines 35-46:
<<
    for service_identity in service_identities:
        if 'ServiceName' not in service_identity:
            raise exceptions.ACLPolicyFormatError(str(service_identity))
    return True
>> *)
Fixpoint __check_service_identities (service_identities : list pydict) : outcome bool :=
  match service_identities with
  | [] => Return true
  | service_identity :: rest =>
      if negb (contains "ServiceName" service_identity)
      then Raise (ACLPolicyFormatError (str (PyDict service_identity)))
      else __check_service_identities rest
  end.

(** The list of mappings as one Python value. *)
Definition structures_value (structures : list pydict) : pyval :=
  PyList (map PyDict structures).

(** [__create_json_format(structures, check)], lines 49-60:
<<
    formatted = None
    if structures is not None and check(structures):
        formatted = json.dumps(structures)
    return formatted
>>
    [structures] is [None] or a list; [check] is any callable, so it runs in
    [M W]: it may raise and it may touch the world. *)
Definition __create_json_format {W : Type} (structures : option (list pydict))
    (check : list pydict -> M W bool) : M W (option string) :=
  match structures with
  | None => ret None
  | Some l =>
      ok <- check l ;;
      if ok then ret (Some (Json.dumps (structures_value l))) else ret None
  end.

(** ** The request models ([consulate.models.acl])

    [acl.py] imports them as [model]; their file is not part of the sources
    studied here, so the two models are written after the specification
    (sections 3 and 4.3, and the error taxonomy of section 7). *)
Module model.

(** Modelled from the spec: one entry of the mapping a model converts to
    (the conversion is missing from the sources).  Section 4.3: a field left
    unset gives no entry. *)
Definition field (key : string) (value : option pyval) : pydict :=
  match value with
  | Some v => [(key, v)]
  | None => []
  end.

(** The caller has set the field. *)
Definition is_set {A : Type} (o : option A) : bool :=
  match o with
  | Some _ => true
  | None => false
  end.

Module ACLPolicy.

(** Modelled from the spec: the fields of [consulate.models.acl.ACLPolicy]
    (the constructor and its conversion to a mapping are missing from the
    sources).  Section 3: [name] is required; [datacenters], [description],
    [rules], [policies] and [service_identities] are optional. *)
Record t : Type := mk {
  name : string;
  datacenters : option (list string);
  description : option string;
  rules : option string;
  policies : option (list pydict);
  service_identities : option (list pydict)
}.

(** Modelled from the spec: a validator applied to an optional field of
    the constructor below (missing from the sources); section 3 makes the
    field optional, so there is nothing to check when it is unset. *)
Definition validate (check : list pydict -> outcome bool)
    (value : option (list pydict)) : outcome bool :=
  match value with
  | None => Return true
  | Some l => check l
  end.

(** Modelled from the spec: the constructor [model.ACLPolicy(...)], missing
    from the sources.  Sections 3 and 7 have the PolicyLink and
    ServiceIdentity invariants enforced locally, before any network call, by
    [ACLPolicyFormatError]; [create_role] hands its [policies] and
    [service_identities] to this constructor and to nothing else, so the
    constructor is where the two validators run. *)
Definition init (name : string) (datacenters : option (list string))
    (description rules : option string)
    (policies service_identities : option (list pydict)) : outcome t :=
  match validate __check_policylinks policies with
  | Raise e => Raise e
  | Return _ =>
      match validate __check_service_identities service_identities with
      | Raise e => Raise e
      | Return _ =>
          Return (mk name datacenters description rules policies service_identities)
      end
  end.

(** Modelled from the spec: [dict(model.ACLPolicy(...))], missing from the
    sources.  Section 4.3: a plain key-value mapping under the wire names
    [Name], [Datacenters], [Description], [Rules], [Policies],
    [ServiceIdentities], omitting any field left unset. *)
Definition to_dict (m : t) : pydict :=
  ([("Name", PyStr (name m))]
   ++ field "Datacenters" (option_map (fun l => PyList (map PyStr l)) (datacenters m))
   ++ field "Description" (option_map PyStr (description m))
   ++ field "Rules" (option_map PyStr (rules m))
   ++ field "Policies" (option_map structures_value (policies m))
   ++ field "ServiceIdentities" (option_map structures_value (service_identities m)))%list.

End ACLPolicy.

Module ACL.

(** Modelled from the spec: the fields of [consulate.models.acl.ACL], the
    legacy token (missing from the sources).  Section 3: [id], [name] and
    [rules] are optional; [type] is a string, which the methods of the
    endpoint always pass. *)
Record t : Type := mk {
  id : option string;
  name : option string;
  type : string;
  rules : option string
}.

(** Modelled from the spec: [dict(model.ACL(...))], missing from the
    sources.  Section 4.3: the wire names are [ID], [Name], [Type], [Rules];
    a field left unset is omitted. *)
Definition to_dict (m : t) : pydict :=
  (field "ID" (option_map PyStr (id m))
   ++ field "Name" (option_map PyStr (name m))
   ++ [("Type", PyStr (type m))]
   ++ field "Rules" (option_map PyStr (rules m)))%list.

End ACL.

End model.

(** ** The transport ([consulate.api.base.Endpoint])

    [ACL] inherits its transport from [base.Endpoint], whose file is not
    part of the sources studied here.  The methods [acl.py] calls are taken as they are
    called, with no assumption on what they do: each may return, raise, and
    change the world.  An optional argument is [None] where the call leaves
    it out. *)
Record response : Type := mk_response {
  status_code : Z;
  body : pyval
}.

Class Endpoint (W : Type) : Type := {
  (** [self._build_uri(params)] *)
  _build_uri : list string -> string;
  (** [self._adapter.put(uri)] *)
  _adapter_put : string -> M W response;
  (** [self._get(params, raise_on_404=...)] *)
  _get : list string -> option bool -> M W pyval;
  (** [self._put_response_body(url_parts, query, payload)] *)
  _put_response_body : list string -> option pydict -> option pydict -> M W pyval;
  (** [self._delete(params)] *)
  _delete : list string -> M W pyval
}.

(** ** The class [ACL] *)
Module ACL.
Section Methods.

Context {W : Type} {self : Endpoint W}.

(** Lines 68-73. *)
Definition read_self_token : M W pyval := _get ["token"; "self"] None.

(** Lines 75-80. *)
Definition list_policies : M W pyval := _get ["policies"] None.

(** Lines 82-88. *)
Definition read_policy (id : string) : M W pyval := _get ["policy"; id] None.

(** Lines 90-110.  The arguments are evaluated before the call: the model is
    built, then converted, then the request goes out. *)
Definition create_policy (name : string) (datacenters : option (list string))
    (description rules : option string) : M W pyval :=
  m <- lift (model.ACLPolicy.init name datacenters description rules None None) ;;
  _put_response_body ["policy"] (Some []) (Some (model.ACLPolicy.to_dict m)).

(** Lines 112-133. *)
Definition update_policy (id name : string) (datacenters : option (list string))
    (description rules : option string) : M W pyval :=
  m <- lift (model.ACLPolicy.init name datacenters description rules None None) ;;
  _put_response_body ["policy"; id] (Some []) (Some (model.ACLPolicy.to_dict m)).

(** Lines 135-142. *)
Definition delete_policy (id : string) : M W pyval := _delete ["policy"; id].

(** Lines 144-149. *)
Definition list_roles : M W pyval := _get ["roles"] None.

(** Lines 151-170:
<<
    return self._put_response_body(
        ["role"], {},
        dict(model.ACLPolicy(name=name, description=description,
                             policies=policies,
                             service_identities=service_identities)))
>> *)
Definition create_role (name : string) (description : option string)
    (policies service_identities : option (list pydict)) : M W pyval :=
  m <- lift (model.ACLPolicy.init name None description None policies service_identities) ;;
  _put_response_body ["role"] (Some []) (Some (model.ACLPolicy.to_dict m)).

(** Line 196: [return self._put_response_body(['bootstrap'])['ID']]. *)
Definition bootstrap : M W pyval :=
  r <- _put_response_body ["bootstrap"] None None ;;
  lift (getitem r "ID").

(** Lines 227-231; [acl_type] defaults to ['client'] and [rules] to [None]:
<<
    return self._put_response_body(
        ['create'], {},
        dict(model.ACL(name=name, type=acl_type, rules=rules)))['ID']
>> *)
Definition create (name acl_type : string) (rules : option string) : M W pyval :=
  r <- _put_response_body ["create"] (Some [])
         (Some (model.ACL.to_dict (model.ACL.mk None (Some name) acl_type rules))) ;;
  lift (getitem r "ID").

(** Line 241: [return self._put_response_body(['clone', acl_id])['ID']]. *)
Definition clone (acl_id : string) : M W pyval :=
  r <- _put_response_body ["clone"; acl_id] None None ;;
  lift (getitem r "ID").

(** Lines 251-254:
<<
    response = self._adapter.put(self._build_uri(['destroy', acl_id]))
    if response.status_code == 403:
        raise exceptions.Forbidden(response.body)
    return response.status_code == 200
>> *)
Definition destroy (acl_id : string) : M W bool :=
  response <- _adapter_put (_build_uri ["destroy"; acl_id]) ;;
  if (status_code response =? 403)%Z then raise (Forbidden (body response))
  else ret (status_code response =? 200)%Z.

(** Lines 265-268:
<<
    response = self._get(['info', acl_id], raise_on_404=True)
    if not response:
        raise exceptions.NotFound('ACL not found')
    return response
>> *)
Definition info (acl_id : string) : M W pyval :=
  response <- _get ["info"; acl_id] (Some true) ;;
  if negb (truthy response) then raise (NotFound (PyStr "ACL not found"))
  else ret response.

(** Lines 279-291. *)
Definition replication : M W pyval := _get ["replication"] None.

(** Lines 307-312; [acl_type] defaults to ['client'] and [rules] to [None]:
<<
    return self._put_response_body(
        ['update'], {},
        dict(model.ACL(id=acl_id, name=name, type=acl_type, rules=rules)))['ID']
>> *)
Definition update (acl_id name acl_type : string) (rules : option string) : M W pyval :=
  r <- _put_response_body ["update"] (Some [])
         (Some (model.ACL.to_dict (model.ACL.mk (Some acl_id) (Some name) acl_type rules))) ;;
  lift (getitem r "ID").

(** Lines 270-277. *)
Definition list : M W pyval := _get ["list"] None.

End Methods.
End ACL.

(** ** A scripted service

    An instance of the transport for running the methods on concrete
    inputs.  Its world is the list of requests issued so far; it answers
    every request with one fixed status and body, raising [Forbidden] on 403
    and [RequestError] on any other status but 200 where the call asks for
    the body alone. *)
Inductive request : Type :=
| AdapterPut : string -> request
| Get : list string -> request
| PutBody : list string -> option pydict -> option pydict -> request
| Delete : list string -> request.

Definition answer (status : Z) (reply : pyval) : outcome pyval :=
  if (status =? 200)%Z then Return reply
  else if (status =? 403)%Z then Raise (Forbidden reply)
  else Raise (RequestError status reply).

Definition scripted (status : Z) (reply : pyval) : Endpoint (list request) := {|
  _build_uri := String.concat "/";
  _adapter_put := fun uri w => (Return (mk_response status reply), (w ++ [AdapterPut uri])%list);
  _get := fun params _ w => (answer status reply, (w ++ [Get params])%list);
  _put_response_body := fun url_parts query payload w =>
    (answer status reply, (w ++ [PutBody url_parts query payload])%list);
  _delete := fun params w => (answer status reply, (w ++ [Delete params])%list)
|}.

(** ** Vocabulary of the properties *)

(** A PolicyLink names its policy: it has the key [ID] or the key [Name]. *)
Definition has_link_key (policy : pydict) : bool :=
  contains "ID" policy || contains "Name" policy.

(** A ServiceIdentity names its service. *)
Definition has_service_name (service_identity : pydict) : bool :=
  contains "ServiceName" service_identity.

(** A body that is absent ([None]) or empty (a str, list or dict of length
    zero). *)
Definition absent_or_empty (v : pyval) : bool :=
  match v with
  | PyNone => true
  | PyStr EmptyString => true
  | PyList [] => true
  | PyDict [] => true
  | _ => false
  end.

(** A value with a length: a str, a list or a dict (a record is a dict). *)
Definition is_sized (v : pyval) : bool :=
  match v with
  | PyStr _ | PyList _ | PyDict _ => true
  | _ => false
  end.

(** A validator that touches nothing outside, as a callback. *)
Definition pure_check {W : Type} (check : list pydict -> outcome bool)
  : list pydict -> M W bool :=
  fun l => lift (check l).

(** No entry of a mapping is [None]. *)
Definition no_none (d : pydict) : bool :=
  forallb (fun kv => match snd kv with PyNone => false | _ => true end) d.

(** The keys of a dict are pairwise different: what Python guarantees of
    every dict, and the association list has to be told. *)
Fixpoint distinct (l : list string) : bool :=
  match l with
  | [] => true
  | x :: l' => negb (existsb (String.eqb x) l') && distinct l'
  end.

(** A well-formed value: every dict in it, at any depth, has distinct
    keys. *)
Fixpoint wf_value (v : pyval) : bool :=
  match v with
  | PyList l => forallb wf_value l
  | PyDict d => distinct (map fst d) && forallb (fun kv => wf_value (snd kv)) d
  | _ => true
  end.

(** Induction on values that reaches the elements of lists and the values
    of dicts. *)
Section pyval_nested_induction.

Variable P : pyval -> Prop.
Hypothesis HNone : P PyNone.
Hypothesis HBool : forall b, P (PyBool b).
Hypothesis HInt : forall z, P (PyInt z).
Hypothesis HStr : forall s, P (PyStr s).
Hypothesis HList : forall l, Forall P l -> P (PyList l).
Hypothesis HDict : forall d, Forall (fun kv => P (snd kv)) d -> P (PyDict d).

Fixpoint pyval_nested_ind (v : pyval) : P v :=
  match v with
  | PyNone => HNone
  | PyBool b => HBool b
  | PyInt z => HInt z
  | PyStr s => HStr s
  | PyList l =>
      HList l ((fix go (l : list pyval) : Forall P l :=
                  match l with
                  | [] => Forall_nil P
                  | x :: l' => Forall_cons x (pyval_nested_ind x) (go l')
                  end) l)
  | PyDict d =>
      HDict d ((fix go (d : list (string * pyval)) : Forall (fun kv => P (snd kv)) d :=
                  match d with
                  | [] => Forall_nil _
                  | kv :: d' => Forall_cons kv (pyval_nested_ind (snd kv)) (go d')
                  end) d)
  end.

End pyval_nested_induction.

(** *** Vocabulary of the decoder's proof *)

(** What may follow a number: the end of the text, or a character that
    neither continues the digits nor starts a fraction or an exponent. *)
Definition number_end (s : string) : bool :=
  match s with
  | EmptyString => true
  | String c _ => negb (Json.is_digit c) && negb (Json.starts_fraction s)
  end.

(** A text that starts with a character of a value: no white space, no
    closing bracket or brace. *)
Definition starts_value (s : string) : bool :=
  match s with
  | EmptyString => false
  | String c _ => negb (Json.is_ws c) && negb (Ascii.eqb c "]") && negb (Ascii.eqb c "}")
  end.

(** [v] is read back from its text, whatever follows the text, by a decoder
    with fuel for the length of the text. *)
Definition roundtrips (v : pyval) : Prop :=
  forall f rest,
    String.length (Json.dumps v) <= f -> number_end rest = true ->
    Json.parse_value f (Json.dumps v ++ rest) = Some (v, rest).

(** The text between the brackets of a list, and between the braces of a
    dict. *)
Definition items (l : list pyval) : string := join_comma (map Json.dumps l).

Definition member (kv : string * pyval) : string :=
  Json.dumps_str (fst kv) ++ ": " ++ Json.dumps (snd kv).

Definition members (d : pydict) : string := join_comma (map member d).

(** A text of printable ASCII characters only, space to tilde. *)
Definition is_printable_ascii (c : ascii) : bool :=
  ((32 <=? N_of_ascii c) && (N_of_ascii c <=? 126))%N.

Fixpoint all_printable_ascii (s : string) : bool :=
  match s with
  | EmptyString => true
  | String c s' => is_printable_ascii c && all_printable_ascii s'
  end.

(* ================================================================== *)
(** * Part II: the properties *)
(* ================================================================== *)

(** ** Dicts *)

Lemma contains_false_lookup (k : string) (d : pydict) :
  contains k d = false -> lookup k d = None.
Proof.
  induction d as [| [k' v] d IH]; simpl; [reflexivity |].
  destruct (String.eqb k' k); simpl; [discriminate | exact IH].
Qed.

Lemma contains_true_lookup (k : string) (d : pydict) :
  contains k d = true -> exists v, lookup k d = Some v.
Proof.
  induction d as [| [k' v] d IH]; simpl; [discriminate |].
  destruct (String.eqb k' k); simpl; [exists v; reflexivity | exact IH].
Qed.

(** ** The validators *)

(** A validator that raises on the first element failing [ok] and returns
    [True] when there is none: the shape both validators share. *)
Section FirstOffender.

Variable ok : pydict -> bool.
Variable check : list pydict -> outcome bool.
Hypothesis check_nil : check [] = Return true.
Hypothesis check_cons : forall x l,
  check (x :: l) =
    if negb (ok x) then Raise (ACLPolicyFormatError (str (PyDict x))) else check l.

Lemma check_all_ok (l : list pydict) :
  forallb ok l = true -> check l = Return true.
Proof.
  induction l as [| x l IH]; simpl; intros H; [exact check_nil |].
  apply andb_prop in H. destruct H as [Hx Hl].
  rewrite check_cons, Hx. simpl. exact (IH Hl).
Qed.

Lemma check_first_offender (l : list pydict) :
  forallb ok l = false ->
  exists pre x post,
    l = (pre ++ x :: post)%list /\ forallb ok pre = true /\ ok x = false /\
    check l = Raise (ACLPolicyFormatError (str (PyDict x))).
Proof.
  induction l as [| x l IH]; simpl; intros H; [discriminate |].
  destruct (ok x) eqn:Hx; simpl in H.
  - destruct (IH H) as (pre & y & post & -> & Hpre & Hy & Hc).
    exists (x :: pre), y, post. simpl. rewrite Hx, Hpre. repeat split; trivial.
    rewrite check_cons, Hx. simpl. exact Hc.
  - exists [], x, l. repeat split; trivial.
    rewrite check_cons, Hx. reflexivity.
Qed.

End FirstOffender.

Lemma forallb_false_of_In {A : Type} (f : A -> bool) (l : list A) (x : A) :
  In x l -> f x = false -> forallb f l = false.
Proof.
  intros Hin Hx. destruct (forallb f l) eqn:E; [| reflexivity].
  rewrite forallb_forall in E. rewrite (E x Hin) in Hx. discriminate.
Qed.

Lemma all_ok_forallb {A : Type} (f : A -> bool) (l : list A) :
  (forall x, In x l -> f x = true) -> forallb f l = true.
Proof. intros H. apply forallb_forall. exact H. Qed.

(** C3.  For every list of PolicyLink mappings: if some element has neither
    the key [ID] nor the key [Name], [__check_policylinks] raises
    [ACLPolicyFormatError] carrying [str] of such an element, the first one
    of the list; if every element has [ID] or [Name], it returns [True], and
    so it does on the empty list. *)
Theorem check_policylinks_spec (policies : list pydict) :
  ((exists p, In p policies /\ has_link_key p = false) ->
   exists pre p post,
     policies = (pre ++ p :: post)%list /\
     forallb has_link_key pre = true /\ has_link_key p = false /\
     __check_policylinks policies = Raise (ACLPolicyFormatError (str (PyDict p)))) /\
  ((forall p, In p policies -> has_link_key p = true) ->
   __check_policylinks policies = Return true) /\
  __check_policylinks [] = Return true.
Proof.
  split; [| split].
  - intros (p & Hin & Hp).
    apply (check_first_offender has_link_key __check_policylinks).
    + intros x l. reflexivity.
    + exact (forallb_false_of_In _ _ _ Hin Hp).
  - intros H.
    apply (check_all_ok has_link_key __check_policylinks).
    + reflexivity.
    + intros x l. reflexivity.
    + exact (all_ok_forallb _ _ H).
  - reflexivity.
Qed.

(** The validator on [[{'Name': 'a'}, {}, {'x': 'y'}]] and on
    [[{'ID': '1'}, {'Name': 'a'}]]. *)
Lemma check_policylinks_spec_witness :
  (exists pre p post,
     [[("Name", PyStr "a")]; []; [("x", PyStr "y")]] = (pre ++ p :: post)%list /\
     forallb has_link_key pre = true /\ has_link_key p = false /\
     __check_policylinks [[("Name", PyStr "a")]; []; [("x", PyStr "y")]]
       = Raise (ACLPolicyFormatError (str (PyDict p)))) /\
  __check_policylinks [[("ID", PyStr "1")]; [("Name", PyStr "a")]] = Return true.
Proof.
  split.
  - apply (proj1 (check_policylinks_spec _)).
    exists []. split; [simpl; auto | reflexivity].
  - apply (proj1 (proj2 (check_policylinks_spec _))).
    intros p [<- | [<- | []]]; reflexivity.
Defined.

(** C8.  For every list of ServiceIdentity mappings:
    [__check_service_identities] raises [ACLPolicyFormatError] (carrying
    [str] of the first offending element) if some element lacks the key
    [ServiceName], and returns [True] otherwise, the empty list included. *)
Theorem check_service_identities_spec (service_identities : list pydict) :
  ((exists s, In s service_identities /\ has_service_name s = false) ->
   exists pre s post,
     service_identities = (pre ++ s :: post)%list /\
     forallb has_service_name pre = true /\ has_service_name s = false /\
     __check_service_identities service_identities
       = Raise (ACLPolicyFormatError (str (PyDict s)))) /\
  ((forall s, In s service_identities -> has_service_name s = true) ->
   __check_service_identities service_identities = Return true) /\
  __check_service_identities [] = Return true.
Proof.
  split; [| split].
  - intros (s & Hin & Hs).
    apply (check_first_offender has_service_name __check_service_identities).
    + intros x l. reflexivity.
    + exact (forallb_false_of_In _ _ _ Hin Hs).
  - intros H.
    apply (check_all_ok has_service_name __check_service_identities).
    + reflexivity.
    + intros x l. reflexivity.
    + exact (all_ok_forallb _ _ H).
  - reflexivity.
Qed.

(** The validator on [[{'ServiceName': 'web'}, {'Datacenters': ['dc1']}]]
    and on [[{'ServiceName': 'web', 'Datacenters': ['dc1']}]]. *)
Lemma check_service_identities_spec_witness :
  (exists pre s post,
     [[("ServiceName", PyStr "web")]; [("Datacenters", PyList [PyStr "dc1"])]]
       = (pre ++ s :: post)%list /\
     forallb has_service_name pre = true /\ has_service_name s = false /\
     __check_service_identities
       [[("ServiceName", PyStr "web")]; [("Datacenters", PyList [PyStr "dc1"])]]
       = Raise (ACLPolicyFormatError (str (PyDict s)))) /\
  __check_service_identities
    [[("ServiceName", PyStr "web"); ("Datacenters", PyList [PyStr "dc1"])]] = Return true.
Proof.
  split.
  - apply (proj1 (check_service_identities_spec _)).
    exists [("Datacenters", PyList [PyStr "dc1"])]. split; [simpl; auto | reflexivity].
  - apply (proj1 (proj2 (check_service_identities_spec _))).
    intros s [<- | []]; reflexivity.
Defined.

(** What the error of the second witness list carries. *)
Example check_service_identities_message :
  __check_service_identities
    [[("ServiceName", PyStr "web")]; [("Datacenters", PyList [PyStr "dc1"])]]
  = Raise (ACLPolicyFormatError "{'Datacenters': ['dc1']}").
Proof. reflexivity. Qed.

(** ** The payload formatter *)

(** C9.  When [structures] is [None], [__create_json_format] returns [None]
    and leaves the world as it found it, whatever the validator is: a
    validator that raises on every input, or changes the world whenever it
    runs, makes no difference, so it is never called. *)
Theorem create_json_format_none {W : Type} (check : list pydict -> M W bool) (w : W) :
  __create_json_format None check w = (Return None, w).
Proof. unfold __create_json_format, ret. reflexivity. Qed.

(** A validator that raises whatever it is given and records that it ran;
    the formatter on [None] neither raises nor records anything. *)
Example create_json_format_none_raising_check :
  __create_json_format (W := nat) None (fun _ n => (Raise TypeError, S n)) 0
  = (Return None, 0).
Proof. reflexivity. Qed.

(** C4, as the code has it.  On [None] the formatter returns [None].  On a
    list, the empty one included, it runs the validator: if the validator
    raises, so does the formatter; if it returns [True], the formatter
    returns the JSON text of the list; if it returns [False], the formatter
    returns [None]. *)
Theorem create_json_format_cases {W : Type} (check : list pydict -> M W bool) (w : W) :
  __create_json_format None check w = (Return None, w) /\
  (forall l e w', check l w = (Raise e, w') ->
     __create_json_format (Some l) check w = (Raise e, w')) /\
  (forall l w', check l w = (Return true, w') ->
     __create_json_format (Some l) check w
       = (Return (Some (Json.dumps (structures_value l))), w')) /\
  (forall l w', check l w = (Return false, w') ->
     __create_json_format (Some l) check w = (Return None, w')).
Proof.
  unfold __create_json_format, bind, ret.
  repeat split; intros; rewrite ?H; reflexivity.
Qed.

(** The formatter on [[{}]] (the validator raises), on [[{'Name': 'a'}]] (it
    accepts) and under a validator that returns [False]. *)
Lemma create_json_format_cases_witness :
  __create_json_format (W := unit) (Some [[]]) (pure_check __check_policylinks) tt
    = (Raise (ACLPolicyFormatError "{}"), tt) /\
  __create_json_format (W := unit) (Some [[("Name", PyStr "a")]])
      (pure_check __check_policylinks) tt
    = (Return (Some (Json.dumps (structures_value [[("Name", PyStr "a")]]))), tt) /\
  __create_json_format (W := unit) (Some [[]]) (fun _ => ret false) tt
    = (Return None, tt).
Proof.
  split; [| split].
  - apply (proj1 (proj2 (create_json_format_cases _ tt))). reflexivity.
  - apply (proj1 (proj2 (proj2 (create_json_format_cases _ tt)))). reflexivity.
  - apply (proj2 (proj2 (proj2 (create_json_format_cases _ tt)))). reflexivity.
Defined.

(** C4 as stated fails on the empty list: it is not [None], so the validator
    runs on it and accepts it, and the result is the text [[]], two
    characters long, neither absent nor empty. *)
Lemma create_json_format_empty_list :
  exists r,
    __create_json_format (W := unit) (Some []) (pure_check __check_policylinks) tt
      = (Return r, tt) /\
    r = Some "[]" /\ r <> None /\ r <> Some EmptyString.
Proof.
  exists (Some "[]"). repeat split; discriminate.
Qed.

(** ** The methods of [ACL] *)

Section MethodProperties.

Context {W : Type} {self : Endpoint W}.

(** C1.  For every response [r] of the transport to [destroy]: on status
    403 the method raises [Forbidden] carrying the body of [r]; on any other
    status it returns, never raising, and what it returns is [True] when the
    status is 200 and [False] when it is not. *)
Theorem destroy_status_mapping (acl_id : string) (w w' : W) (r : response) :
  _adapter_put (_build_uri ["destroy"; acl_id]) w = (Return r, w') ->
  (status_code r = 403%Z ->
     ACL.destroy acl_id w = (Raise (Forbidden (body r)), w')) /\
  (status_code r = 200%Z -> ACL.destroy acl_id w = (Return true, w')) /\
  (status_code r <> 403%Z -> status_code r <> 200%Z ->
     ACL.destroy acl_id w = (Return false, w')).
Proof.
  intros Hput. unfold ACL.destroy, bind. rewrite Hput.
  repeat split.
  - intros ->. reflexivity.
  - intros ->. reflexivity.
  - intros H403 H200.
    apply Z.eqb_neq in H403. apply Z.eqb_neq in H200.
    rewrite H403, H200. reflexivity.
Qed.

(** C2.  For every ACL id, when the GET behind [info] succeeds with a body
    [v]: if [v] is absent or empty, [info] raises [NotFound]; if [v] is a
    str, list or dict that is not empty, a record in particular, [info]
    returns [v]. *)
Theorem info_not_found_on_empty (acl_id : string) (w w' : W) (v : pyval) :
  _get ["info"; acl_id] (Some true) w = (Return v, w') ->
  (absent_or_empty v = true ->
     ACL.info acl_id w = (Raise (NotFound (PyStr "ACL not found")), w')) /\
  (is_sized v = true -> absent_or_empty v = false ->
     ACL.info acl_id w = (Return v, w')).
Proof.
  intros Hget. unfold ACL.info, bind. rewrite Hget. split.
  - destruct v as [| b | z | s | l | d]; simpl; try discriminate; try reflexivity.
    + destruct s; [reflexivity | discriminate].
    + destruct l; [reflexivity | discriminate].
    + destruct d; [reflexivity | discriminate].
  - destruct v as [| b | z | s | l | d]; simpl; try discriminate.
    + destruct s; [discriminate | reflexivity].
    + destruct l; [discriminate | reflexivity].
    + destruct d; [discriminate | reflexivity].
Qed.

(** An exception of the GET itself (the 404 it was asked to raise on, a 403)
    passes through [info] unchanged. *)
Lemma info_propagates (acl_id : string) (w w' : W) (e : exn) :
  _get ["info"; acl_id] (Some true) w = (Raise e, w') ->
  ACL.info acl_id w = (Raise e, w').
Proof. intros Hget. unfold ACL.info, bind. rewrite Hget. reflexivity. Qed.

(** X1.  The test of [info] is Python's truth test, so the two falsy
    scalars, the number zero and [False], end in [NotFound] as well. *)
Lemma info_falsy_scalar (acl_id : string) (w w' : W) (v : pyval) :
  _get ["info"; acl_id] (Some true) w = (Return v, w') ->
  v = PyInt 0 \/ v = PyBool false ->
  ACL.info acl_id w = (Raise (NotFound (PyStr "ACL not found")), w').
Proof.
  intros Hget Hv. unfold ACL.info, bind. rewrite Hget.
  destruct Hv as [-> | ->]; reflexivity.
Qed.

(** The subscript [['ID']] on a dict without that key. *)
Lemma getitem_missing (d : pydict) (k : string) :
  contains k d = false -> getitem (PyDict d) k = Raise (KeyError k).
Proof. intros H. simpl. rewrite (contains_false_lookup _ _ H). reflexivity. Qed.

(** C10.  [bootstrap], [create], [clone] and [update] subscript the body
    they get back with ['ID'] unconditionally: when the transport returns a
    mapping without the key [ID], each of them raises [KeyError], which is
    a builtin exception and none of [consulate.exceptions]. *)
Theorem id_subscript_key_error (d : pydict) :
  contains "ID" d = false ->
  (forall w w',
     _put_response_body ["bootstrap"] None None w = (Return (PyDict d), w') ->
     ACL.bootstrap w = (Raise (KeyError "ID"), w')) /\
  (forall name acl_type rules w w',
     _put_response_body ["create"] (Some [])
       (Some (model.ACL.to_dict (model.ACL.mk None (Some name) acl_type rules))) w
       = (Return (PyDict d), w') ->
     ACL.create name acl_type rules w = (Raise (KeyError "ID"), w')) /\
  (forall acl_id w w',
     _put_response_body ["clone"; acl_id] None None w = (Return (PyDict d), w') ->
     ACL.clone acl_id w = (Raise (KeyError "ID"), w')) /\
  (forall acl_id name acl_type rules w w',
     _put_response_body ["update"] (Some [])
       (Some (model.ACL.to_dict (model.ACL.mk (Some acl_id) (Some name) acl_type rules))) w
       = (Return (PyDict d), w') ->
     ACL.update acl_id name acl_type rules w = (Raise (KeyError "ID"), w')) /\
  is_consulate_exception (KeyError "ID") = false.
Proof.
  intros Hd.
  repeat split; intros;
    unfold ACL.bootstrap, ACL.create, ACL.clone, ACL.update, bind, lift;
    rewrite H, (getitem_missing _ _ Hd); reflexivity.
Qed.

(** With the key present the four methods return what is under it. *)
Lemma id_subscript_found (d : pydict) (x : pyval) :
  lookup "ID" d = Some x ->
  (forall w w',
     _put_response_body ["bootstrap"] None None w = (Return (PyDict d), w') ->
     ACL.bootstrap w = (Return x, w')) /\
  (forall acl_id w w',
     _put_response_body ["clone"; acl_id] None None w = (Return (PyDict d), w') ->
     ACL.clone acl_id w = (Return x, w')).
Proof.
  intros Hd.
  split; intros; unfold ACL.bootstrap, ACL.clone, bind, lift;
    rewrite H; simpl; rewrite Hd; reflexivity.
Qed.

(** C7.  [create_role] with a [policies] list holding an element that has
    neither [ID] nor [Name] raises [ACLPolicyFormatError] (for the first
    such element) and leaves the world as it was: whatever the transport is,
    no request has gone out. *)
Theorem create_role_rejects_bad_policies (name : string) (description : option string)
    (policies : list pydict) (service_identities : option (list pydict)) (w : W) :
  (exists p, In p policies /\ has_link_key p = false) ->
  exists p, In p policies /\ has_link_key p = false /\
    ACL.create_role name description (Some policies) service_identities w
      = (Raise (ACLPolicyFormatError (str (PyDict p))), w).
Proof.
  intros (p0 & Hin & Hp0).
  destruct (check_first_offender has_link_key __check_policylinks
              (fun x l => eq_refl) policies (forallb_false_of_In _ _ _ Hin Hp0))
    as (pre & p & post & Hl & _ & Hp & Hc).
  exists p. split; [| split; [exact Hp |]].
  - rewrite Hl. apply in_or_app. right. left. reflexivity.
  - unfold ACL.create_role, bind, lift, model.ACLPolicy.init. simpl.
    rewrite Hc. reflexivity.
Qed.

End MethodProperties.

(** [destroy] against a service answering 403, 200 and 500. *)
Lemma destroy_status_mapping_witness :
  ACL.destroy (self := scripted 403 (PyStr "Permission denied")) "abc" []
    = (Raise (Forbidden (PyStr "Permission denied")), [AdapterPut "destroy/abc"]) /\
  ACL.destroy (self := scripted 200 (PyBool true)) "abc" []
    = (Return true, [AdapterPut "destroy/abc"]) /\
  ACL.destroy (self := scripted 500 (PyStr "rpc error")) "abc" []
    = (Return false, [AdapterPut "destroy/abc"]).
Proof.
  split; [| split].
  - apply (proj1 (destroy_status_mapping
                    (self := scripted 403 (PyStr "Permission denied"))
                    "abc" [] _ _ eq_refl)).
    reflexivity.
  - apply (proj1 (proj2 (destroy_status_mapping
                           (self := scripted 200 (PyBool true)) "abc" [] _ _ eq_refl))).
    reflexivity.
  - apply (proj2 (proj2 (destroy_status_mapping
                           (self := scripted 500 (PyStr "rpc error")) "abc" [] _ _ eq_refl)));
      simpl; lia.
Defined.

(** [info] against a service answering 200 with no body, and with a token
    record. *)
Lemma info_not_found_on_empty_witness :
  ACL.info (self := scripted 200 PyNone) "abc" []
    = (Raise (NotFound (PyStr "ACL not found")), [Get ["info"; "abc"]]) /\
  ACL.info (self := scripted 200 (PyDict [("ID", PyStr "abc"); ("Type", PyStr "client")]))
      "abc" []
    = (Return (PyDict [("ID", PyStr "abc"); ("Type", PyStr "client")]),
       [Get ["info"; "abc"]]).
Proof.
  split.
  - apply (proj1 (info_not_found_on_empty (self := scripted 200 PyNone)
                    "abc" [] _ _ eq_refl)).
    reflexivity.
  - apply (proj2 (info_not_found_on_empty
                    (self := scripted 200 (PyDict [("ID", PyStr "abc"); ("Type", PyStr "client")]))
                    "abc" [] _ _ eq_refl));
      reflexivity.
Defined.

(** [info] against a service answering 200 with the body [0]. *)
Lemma info_falsy_scalar_witness :
  ACL.info (self := scripted 200 (PyInt 0)) "abc" []
    = (Raise (NotFound (PyStr "ACL not found")), [Get ["info"; "abc"]]).
Proof.
  apply (info_falsy_scalar (self := scripted 200 (PyInt 0)) "abc" [] _ (PyInt 0) eq_refl).
  left. reflexivity.
Defined.

(** The four methods against a service answering 200 with the body
    [{'Name': 'x'}]. *)
Lemma id_subscript_key_error_witness :
  ACL.bootstrap (self := scripted 200 (PyDict [("Name", PyStr "x")])) []
    = (Raise (KeyError "ID"), [PutBody ["bootstrap"] None None]) /\
  ACL.clone (self := scripted 200 (PyDict [("Name", PyStr "x")])) "abc" []
    = (Raise (KeyError "ID"), [PutBody ["clone"; "abc"] None None]) /\
  ACL.create (self := scripted 200 (PyDict [("Name", PyStr "x")])) "x" "client" None []
    = (Raise (KeyError "ID"),
       [PutBody ["create"] (Some [])
          (Some [("Name", PyStr "x"); ("Type", PyStr "client")])]) /\
  ACL.update (self := scripted 200 (PyDict [("Name", PyStr "x")])) "abc" "x" "client" None []
    = (Raise (KeyError "ID"),
       [PutBody ["update"] (Some [])
          (Some [("ID", PyStr "abc"); ("Name", PyStr "x"); ("Type", PyStr "client")])]).
Proof.
  pose proof (id_subscript_key_error
                (self := scripted 200 (PyDict [("Name", PyStr "x")]))
                [("Name", PyStr "x")] eq_refl) as (Hb & Hc & Hcl & Hu & _).
  split; [| split; [| split]].
  - apply Hb. reflexivity.
  - apply Hcl. reflexivity.
  - apply Hc. reflexivity.
  - apply Hu. reflexivity.
Defined.

(** [create_role(name='bad', policies=[{}])] against a service that would
    answer 200: the error is raised and the list of requests stays empty. *)
Lemma create_role_rejects_bad_policies_witness :
  exists p, In p [[]] /\ has_link_key p = false /\
    ACL.create_role (self := scripted 200 (PyDict [])) "bad" None (Some [[]]) None []
      = (Raise (ACLPolicyFormatError (str (PyDict p))), []).
Proof.
  apply (create_role_rejects_bad_policies (self := scripted 200 (PyDict []))).
  exists []. split; [left; reflexivity | reflexivity].
Defined.

(** The same call evaluated: the message is the text of the empty dict. *)
Example create_role_bad_policies_run :
  ACL.create_role (self := scripted 200 (PyDict [])) "bad" None (Some [[]]) None []
  = (Raise (ACLPolicyFormatError "{}"), []).
Proof. reflexivity. Qed.

(** A role with well-formed policies does reach the transport, with the
    payload of section 8: [{'Name': 'r1', 'Policies': [{'Name': 'svc-read'}]}]. *)
Example create_role_good_policies_run :
  ACL.create_role (self := scripted 200 (PyDict [("ID", PyStr "1")])) "r1" None
    (Some [[("Name", PyStr "svc-read")]]) None []
  = (Return (PyDict [("ID", PyStr "1")]),
     [PutBody ["role"] (Some [])
        (Some [("Name", PyStr "r1");
               ("Policies", PyList [PyDict [("Name", PyStr "svc-read")]])])]).
Proof. reflexivity. Qed.

(** ** The request models *)

(** C6.  The mapping a request model converts to has a key for an optional
    field exactly when the caller set the field, and no [None] value: this
    for [ACLPolicy] and for the token model.  [ACLPolicy(name='p')], all
    other fields unset, converts to exactly [{'Name': 'p'}], and that is the
    payload [create_policy('p')] hands to the transport. *)
Theorem models_omit_unset_fields :
  (forall m : model.ACLPolicy.t,
     contains "Name" (model.ACLPolicy.to_dict m) = true /\
     contains "Datacenters" (model.ACLPolicy.to_dict m)
       = model.is_set (model.ACLPolicy.datacenters m) /\
     contains "Description" (model.ACLPolicy.to_dict m)
       = model.is_set (model.ACLPolicy.description m) /\
     contains "Rules" (model.ACLPolicy.to_dict m)
       = model.is_set (model.ACLPolicy.rules m) /\
     contains "Policies" (model.ACLPolicy.to_dict m)
       = model.is_set (model.ACLPolicy.policies m) /\
     contains "ServiceIdentities" (model.ACLPolicy.to_dict m)
       = model.is_set (model.ACLPolicy.service_identities m) /\
     no_none (model.ACLPolicy.to_dict m) = true) /\
  (forall m : model.ACL.t,
     contains "ID" (model.ACL.to_dict m) = model.is_set (model.ACL.id m) /\
     contains "Name" (model.ACL.to_dict m) = model.is_set (model.ACL.name m) /\
     contains "Type" (model.ACL.to_dict m) = true /\
     contains "Rules" (model.ACL.to_dict m) = model.is_set (model.ACL.rules m) /\
     no_none (model.ACL.to_dict m) = true) /\
  model.ACLPolicy.to_dict (model.ACLPolicy.mk "p" None None None None None)
    = [("Name", PyStr "p")] /\
  (forall (W : Type) (self : Endpoint W),
     ACL.create_policy "p" None None None
     = _put_response_body ["policy"] (Some []) (Some [("Name", PyStr "p")])).
Proof.
  split; [| split; [| split]].
  - intros [n dc de ru po si].
    destruct dc, de, ru, po, si; repeat split; reflexivity.
  - intros [i n t ru].
    destruct i, n, ru; repeat split; reflexivity.
  - reflexivity.
  - intros W self. reflexivity.
Qed.

(** ** The [json] round trip *)

(** *** Strings *)

Lemma string_app_assoc (a b c : string) : (a ++ b) ++ c = a ++ (b ++ c).
Proof. induction a as [| x a IH]; simpl; [reflexivity | rewrite IH; reflexivity]. Qed.

Lemma string_app_length (a b : string) :
  String.length (a ++ b) = String.length a + String.length b.
Proof. induction a as [| x a IH]; simpl; [reflexivity | rewrite IH; reflexivity]. Qed.

Lemma string_app_nil_r (a : string) : a ++ EmptyString = a.
Proof. induction a as [| x a IH]; simpl; [reflexivity | rewrite IH; reflexivity]. Qed.

(** The decoder undoes the escape of one character, whatever the
    character: the 256 cases are run. *)
Lemma scan_escape_char (c : ascii) (t : string) :
  Json.scanstring (Json.escape_char c ++ t) = Json.cons_char c (Json.scanstring t).
Proof.
  destruct c as [[] [] [] [] [] [] [] []]; reflexivity.
Qed.

(** An escaped str is read back up to its closing quote. *)
Lemma scan_escape (s rest : string) :
  Json.scanstring (Json.escape s ++ String dquote rest) = Some (s, rest).
Proof.
  induction s as [| c s IH]; simpl.
  - reflexivity.
  - rewrite string_app_assoc, scan_escape_char, IH. reflexivity.
Qed.

(** *** Integers *)

Lemma digits_value_stop (rest : string) (acc : Z) :
  number_end rest = true -> Json.digits_value rest acc = (acc, rest).
Proof.
  destruct rest as [| c r]; [reflexivity |]. simpl.
  intros H. apply andb_prop in H. destruct H as [Hd _].
  apply negb_true_iff in Hd. rewrite Hd. reflexivity.
Qed.

Ltac digit_step IH :=
  cbn [NilEmpty.string_of_uint append Json.digits_value Pos.of_uint_acc];
  match goal with
  | |- context [Json.is_digit ?c] => change (Json.is_digit c) with true
  end;
  cbv iota;
  match goal with
  | |- Json.digits_value _ ?z = (Zpos (Pos.of_uint_acc _ ?p), _) =>
      replace z with (Zpos p) by (vm_compute (Z.of_N (N_of_ascii _)); lia)
  end;
  apply IH.

(** Reading the digits of [d] after [acc] is [Pos.of_uint_acc], the
    accumulation the standard library reads decimals with. *)
Lemma digits_value_acc (d : Decimal.uint) (acc : positive) (rest : string) :
  number_end rest = true ->
  Json.digits_value (NilEmpty.string_of_uint d ++ rest) (Zpos acc)
  = (Zpos (Pos.of_uint_acc d acc), rest).
Proof.
  intros Hrest. revert acc.
  induction d as [| d IH | d IH | d IH | d IH | d IH | d IH | d IH | d IH | d IH | d IH];
    intros acc; [exact (digits_value_stop rest _ Hrest) | ..]; digit_step IH.
Qed.

(** The decimal text of a positive number starts with a digit that is not
    zero. *)
Lemma to_uint_head (p : positive) :
  match Pos.to_uint p with
  | Decimal.Nil | Decimal.D0 _ => False
  | _ => True
  end.
Proof.
  pose proof (Unsigned.to_uint_nonnil p) as Hnil.
  pose proof (Unsigned.to_uint_nonzero p) as Hzero.
  pose proof (Unsigned.to_of (Pos.to_uint p)) as Hnorm.
  rewrite Unsigned.of_to in Hnorm. simpl in Hnorm.
  destruct (Pos.to_uint p) as [| d | d | d | d | d | d | d | d | d | d];
    try exact I; [congruence |].
  rewrite unorm_D0 in Hnorm. unfold Decimal.unorm in Hnorm.
  pose proof (nzhead_nonzero d d) as Hnz.
  destruct (Decimal.nzhead d); congruence.
Qed.

Lemma scan_int_text (p : positive) (rest : string) :
  number_end rest = true ->
  Json.scan_int (NilZero.string_of_uint (Pos.to_uint p) ++ rest) = Some (Zpos p, rest).
Proof.
  intros Hrest.
  pose proof (to_uint_head p) as Hhead.
  pose proof (Unsigned.of_to p) as Hof.
  destruct (Pos.to_uint p) as [| d | d | d | d | d | d | d | d | d | d];
    try contradiction;
    cbn [NilZero.string_of_uint NilEmpty.string_of_uint append Json.scan_int];
    match goal with
    | |- context [Ascii.eqb ?c "0"] => change (Ascii.eqb c "0") with false
    end;
    match goal with
    | |- context [Json.is_digit ?c] => change (Json.is_digit c) with true
    end;
    cbv iota; cbn [Json.digits_value];
    match goal with
    | |- context [Json.is_digit ?c] => change (Json.is_digit c) with true
    end;
    cbv iota;
    match goal with
    | |- context [Json.digits_value _ ?z] =>
        let z' := eval vm_compute in z in change z with z'
    end;
    rewrite digits_value_acc by exact Hrest;
    simpl in Hof; injection Hof as Hof; rewrite Hof; reflexivity.
Qed.

Lemma number_end_fraction (rest : string) :
  number_end rest = true -> Json.starts_fraction rest = false.
Proof.
  destruct rest as [| c r]; [reflexivity |].
  unfold number_end. intros H. apply andb_prop in H. destruct H as [_ H].
  apply negb_true_iff in H. exact H.
Qed.

(** The decimal text of an integer is read back as that integer. *)
Lemma scan_number_text (z : Z) (rest : string) :
  number_end rest = true ->
  Json.scan_number (int_text z ++ rest) = Some (PyInt z, rest).
Proof.
  intros Hrest. pose proof (number_end_fraction rest Hrest) as Hfrac.
  destruct z as [| p | p]; unfold int_text, Json.scan_number.
  - simpl. rewrite Hfrac. reflexivity.
  - cbn [Z.to_int NilZero.string_of_int].
    pose proof (to_uint_head p) as Hhead.
    pose proof (scan_int_text p rest Hrest) as Hscan.
    destruct (Pos.to_uint p) as [| d | d | d | d | d | d | d | d | d | d];
      try contradiction;
      cbn [NilZero.string_of_uint NilEmpty.string_of_uint append] in *;
      match goal with
      | |- context [Ascii.eqb ?c "-"] => change (Ascii.eqb c "-") with false
      end;
      cbv iota; rewrite Hscan, Hfrac; reflexivity.
  - cbn [Z.to_int NilZero.string_of_int append].
    change (Ascii.eqb "-" "-") with true. cbv iota.
    rewrite (scan_int_text p rest Hrest), Hfrac. reflexivity.
Qed.

(** *** First characters *)

Lemma starts_skip (s : string) : starts_value s = true -> Json.skip_ws s = s.
Proof.
  destruct s as [| c r]; simpl; [reflexivity |].
  intros H. destruct (Json.is_ws c); [discriminate | reflexivity].
Qed.

Lemma int_text_head (z : Z) :
  exists c t, int_text z = String c t /\
    (c = "-"%char \/ Json.is_digit c = true).
Proof.
  destruct z as [| p | p]; unfold int_text; cbn [Z.to_int NilZero.string_of_int].
  - exists "0"%char, EmptyString. split; [reflexivity | right; reflexivity].
  - pose proof (to_uint_head p) as Hhead.
    destruct (Pos.to_uint p) as [| d | d | d | d | d | d | d | d | d | d];
      try contradiction; cbn [NilZero.string_of_uint NilEmpty.string_of_uint];
      eexists _, _; (split; [reflexivity | right; reflexivity]).
  - eexists _, _. split; [reflexivity | left; reflexivity].
Qed.

(** A value that starts with a minus sign or a digit is a number. *)
Lemma number_dispatch (c : ascii) (t : string) (f : nat) :
  c = "-"%char \/ Json.is_digit c = true ->
  Json.parse_value (S f) (String c t) = Json.scan_number (String c t) /\
  starts_value (String c t) = true.
Proof.
  intros [-> | H]; [split; reflexivity |].
  destruct c as [[] [] [] [] [] [] [] []]; try discriminate H; split; reflexivity.
Qed.

(** The text of a value starts with a character of a value. *)
Lemma dumps_starts (v : pyval) (t : string) : starts_value (Json.dumps v ++ t) = true.
Proof.
  destruct v as [| [] | z | s | l | d]; try reflexivity.
  destruct (int_text_head z) as (c & r & Hz & Hc).
  simpl. rewrite Hz. exact (proj2 (number_dispatch c (r ++ t) 0 Hc)).
Qed.

Lemma parse_int (z : Z) (f : nat) (rest : string) :
  number_end rest = true ->
  Json.parse_value (S f) (int_text z ++ rest) = Some (PyInt z, rest).
Proof.
  intros Hrest. rewrite <- (scan_number_text z rest Hrest).
  destruct (int_text_head z) as (c & r & Hz & Hc).
  rewrite Hz. exact (proj1 (number_dispatch c (r ++ rest) f Hc)).
Qed.

Lemma parse_str (s : string) (f : nat) (rest : string) :
  Json.parse_value (S f) (Json.dumps_str s ++ rest) = Some (PyStr s, rest).
Proof.
  unfold Json.dumps_str. cbn [append]. rewrite string_app_assoc. cbn [append].
  cbn [Json.parse_value]. change (Ascii.eqb dquote dquote) with true. cbv iota.
  rewrite scan_escape. reflexivity.
Qed.

Lemma parse_open_bracket (f : nat) (s : string) :
  starts_value s = true ->
  Json.parse_value (S f) (String "[" s)
  = match Json.parse_elements f s with
    | Some (l, r) => Some (PyList l, r)
    | None => None
    end.
Proof.
  intros H. cbn [Json.parse_value].
  change (Ascii.eqb "[" dquote) with false. change (Ascii.eqb "[" "[") with true.
  cbv iota. rewrite (starts_skip s H).
  destruct s as [| c r]; [discriminate H |].
  simpl in H. destruct (Ascii.eqb c "]"); [| reflexivity].
  rewrite andb_false_r in H. discriminate H.
Qed.

Lemma parse_open_brace (f : nat) (s : string) :
  starts_value s = true ->
  Json.parse_value (S f) (String "{" s)
  = match Json.parse_members f s with
    | Some (ps, r) => Some (PyDict (dict_of_pairs ps), r)
    | None => None
    end.
Proof.
  intros H. cbn [Json.parse_value].
  change (Ascii.eqb "{" dquote) with false. change (Ascii.eqb "{" "[") with false.
  change (Ascii.eqb "{" "{") with true.
  cbv iota. rewrite (starts_skip s H).
  destruct s as [| c r]; [discriminate H |].
  simpl in H. destruct (Ascii.eqb c "}"); [| reflexivity].
  rewrite andb_false_r in H. discriminate H.
Qed.

(** *** Lists and dicts *)

Lemma items_cons2 (x y : pyval) (l : list pyval) :
  items (x :: y :: l) = Json.dumps x ++ ", " ++ items (y :: l).
Proof. reflexivity. Qed.

Lemma members_cons2 (x y : string * pyval) (d : pydict) :
  members (x :: y :: d) = member x ++ ", " ++ members (y :: d).
Proof. reflexivity. Qed.

Lemma items_starts (x : pyval) (l : list pyval) (t : string) :
  starts_value (items (x :: l) ++ t) = true.
Proof.
  destruct l as [| y l].
  - apply dumps_starts.
  - rewrite items_cons2, string_app_assoc. apply dumps_starts.
Qed.

Lemma members_starts (x : string * pyval) (d : pydict) (t : string) :
  starts_value (members (x :: d) ++ t) = true.
Proof.
  destruct d as [| y d]; [| rewrite members_cons2]; reflexivity.
Qed.

Lemma skip_space (s : string) : Json.skip_ws (String " " s) = Json.skip_ws s.
Proof. reflexivity. Qed.

Lemma skip_comma (s : string) : Json.skip_ws (String "," s) = String "," s.
Proof. reflexivity. Qed.

Lemma skip_colon (s : string) : Json.skip_ws (String ":" s) = String ":" s.
Proof. reflexivity. Qed.

Lemma skip_bracket (s : string) : Json.skip_ws (String "]" s) = String "]" s.
Proof. reflexivity. Qed.

Lemma skip_brace (s : string) : Json.skip_ws (String "}" s) = String "}" s.
Proof. reflexivity. Qed.

(** One step of [parse_elements] and of [parse_members], on a text whose
    first value is known to parse. *)
Lemma parse_elements_last (f : nat) (s rest : string) (v : pyval) :
  Json.parse_value f s = Some (v, String "]" rest) ->
  Json.parse_elements (S f) s = Some ([v], rest).
Proof. intros H. cbn [Json.parse_elements]. rewrite H, skip_bracket. reflexivity. Qed.

Lemma parse_elements_more (f : nat) (s t : string) (v : pyval) :
  Json.parse_value f s = Some (v, String "," t) ->
  Json.parse_elements (S f) s
  = match Json.parse_elements f (Json.skip_ws t) with
    | Some (vs, r) => Some (v :: vs, r)
    | None => None
    end.
Proof. intros H. cbn [Json.parse_elements]. rewrite H, skip_comma. reflexivity. Qed.

Lemma parse_members_last (f : nat) (s0 s2 rest k : string) (v : pyval) :
  Json.scanstring s0 = Some (k, String ":" s2) ->
  Json.parse_value f (Json.skip_ws s2) = Some (v, String "}" rest) ->
  Json.parse_members (S f) (String dquote s0) = Some ([(k, v)], rest).
Proof.
  intros Hk Hv. cbn [Json.parse_members].
  change (Ascii.eqb dquote dquote) with true. cbn [negb].
  rewrite Hk, skip_colon. change (Ascii.eqb ":" ":") with true. cbn [negb].
  rewrite Hv, skip_brace. reflexivity.
Qed.

Lemma parse_members_more (f : nat) (s0 s2 t k : string) (v : pyval) :
  Json.scanstring s0 = Some (k, String ":" s2) ->
  Json.parse_value f (Json.skip_ws s2) = Some (v, String "," t) ->
  Json.parse_members (S f) (String dquote s0)
  = match Json.parse_members f (Json.skip_ws t) with
    | Some (ps, r) => Some ((k, v) :: ps, r)
    | None => None
    end.
Proof.
  intros Hk Hv. cbn [Json.parse_members].
  change (Ascii.eqb dquote dquote) with true. cbn [negb].
  rewrite Hk, skip_colon. change (Ascii.eqb ":" ":") with true. cbn [negb].
  rewrite Hv, skip_comma. reflexivity.
Qed.

(** The items of a non-empty list, each of which is read back alone, are
    read back together up to the closing bracket. *)
Lemma parse_elements_items (l : list pyval) :
  Forall roundtrips l -> l <> [] ->
  forall f rest,
    S (String.length (items l)) <= f ->
    Json.parse_elements f (items l ++ String "]" rest) = Some (l, rest).
Proof.
  induction 1 as [| x l Hx Hl IH]; intros Hne f rest Hf; [congruence |].
  destruct f as [| f]; [lia |].
  destruct l as [| y l].
  - change (items [x]) with (Json.dumps x) in *.
    apply parse_elements_last. apply Hx; [lia | reflexivity].
  - rewrite items_cons2 in *. rewrite string_app_length in Hf.
    cbn [String.length append] in Hf.
    rewrite !string_app_assoc. cbn [append].
    rewrite (parse_elements_more f _ (String " " (items (y :: l) ++ String "]" rest)) x)
      by (apply Hx; [lia | reflexivity]).
    rewrite skip_space, (starts_skip _ (items_starts y l _)).
    rewrite IH by (try discriminate; lia). reflexivity.
Qed.

Lemma member_text (kv : string * pyval) (tail : string) :
  member kv ++ tail
  = String dquote (Json.escape (fst kv)
      ++ String dquote (String ":" (String " " (Json.dumps (snd kv) ++ tail)))).
Proof.
  unfold member, Json.dumps_str. cbn [append].
  rewrite !string_app_assoc. cbn [append]. reflexivity.
Qed.

Lemma member_length (kv : string * pyval) :
  String.length (Json.dumps (snd kv)) < String.length (member kv).
Proof.
  unfold member, Json.dumps_str. cbn [String.length append].
  rewrite !string_app_length. cbn [String.length]. lia.
Qed.

Lemma parse_member_value (v : pyval) (f : nat) (tail : string) :
  roundtrips v -> String.length (Json.dumps v) <= f -> number_end tail = true ->
  Json.parse_value f (Json.skip_ws (String " " (Json.dumps v ++ tail))) = Some (v, tail).
Proof.
  intros Hv Hf Htail.
  rewrite skip_space, (starts_skip _ (dumps_starts v tail)). apply Hv; assumption.
Qed.

(** The same for the members of a non-empty dict, as pairs. *)
Lemma parse_members_items (d : pydict) :
  Forall (fun kv => roundtrips (snd kv)) d -> d <> [] ->
  forall f rest,
    S (String.length (members d)) <= f ->
    Json.parse_members f (members d ++ String "}" rest) = Some (d, rest).
Proof.
  induction 1 as [| [k v] d Hx Hd IH]; intros Hne f rest Hf; [congruence |].
  destruct f as [| f]; [lia |].
  pose proof (member_length (k, v)) as Hlen. cbn [snd] in Hx, Hlen.
  destruct d as [| y d].
  - change (members [(k, v)]) with (member (k, v)) in *.
    rewrite member_text. cbn [fst snd].
    apply (parse_members_last f _ _ rest k v (scan_escape k _)).
    apply parse_member_value; [exact Hx | lia | reflexivity].
  - rewrite members_cons2 in *. rewrite string_app_length in Hf.
    cbn [String.length append] in Hf.
    rewrite string_app_assoc, member_text. cbn [fst snd append].
    rewrite (parse_members_more f _ _
               (String " " (members (y :: d) ++ String "}" rest)) k v (scan_escape k _))
      by (apply parse_member_value; [exact Hx | lia | reflexivity]).
    rewrite skip_space, (starts_skip _ (members_starts y d _)).
    rewrite IH by (try discriminate; lia). reflexivity.
Qed.

(** *** [dict(pairs)] on distinct keys *)

Lemma setitem_fresh (d : pydict) (k : string) (v : pyval) :
  existsb (String.eqb k) (map fst d) = false -> setitem d k v = (d ++ [(k, v)])%list.
Proof.
  induction d as [| [k' v'] d IH]; simpl; [reflexivity |].
  intros H. apply orb_false_elim in H. destruct H as [Hk Hd].
  rewrite String.eqb_sym, Hk, (IH Hd). reflexivity.
Qed.

Lemma distinct_middle (a b : list string) (k : string) :
  distinct (a ++ k :: b)%list = true -> existsb (String.eqb k) a = false.
Proof.
  induction a as [| x a IH]; simpl; [reflexivity |].
  intros H. apply andb_prop in H. destruct H as [Hx Ha].
  apply negb_true_iff in Hx. rewrite existsb_app in Hx.
  apply orb_false_elim in Hx. destruct Hx as [_ Hx]. simpl in Hx.
  apply orb_false_elim in Hx. destruct Hx as [Hx _].
  rewrite String.eqb_sym, Hx, (IH Ha). reflexivity.
Qed.

Lemma dict_of_pairs_acc (ps acc : pydict) :
  distinct (map fst (acc ++ ps)%list) = true ->
  fold_left (fun d kv => setitem d (fst kv) (snd kv)) ps acc = (acc ++ ps)%list.
Proof.
  revert acc. induction ps as [| [k v] ps IH]; intros acc H; simpl.
  - rewrite List.app_nil_r. reflexivity.
  - rewrite List.map_app in H. simpl in H.
    rewrite (setitem_fresh acc k v (distinct_middle _ _ _ H)).
    rewrite IH; rewrite <- List.app_assoc; simpl; [reflexivity |].
    rewrite List.map_app. exact H.
Qed.

Lemma dict_of_pairs_distinct (d : pydict) :
  distinct (map fst d) = true -> dict_of_pairs d = d.
Proof. intros H. exact (dict_of_pairs_acc d [] H). Qed.

(** *** Values *)

Lemma forall_roundtrips (l : list pyval) :
  Forall (fun v => wf_value v = true -> roundtrips v) l ->
  forallb wf_value l = true -> Forall roundtrips l.
Proof.
  induction 1 as [| x l Hx Hl IH]; simpl; intros H; constructor;
    apply andb_prop in H; destruct H as [H1 H2]; auto.
Qed.

Lemma forall_roundtrips_values (d : pydict) :
  Forall (fun kv => wf_value (snd kv) = true -> roundtrips (snd kv)) d ->
  forallb (fun kv => wf_value (snd kv)) d = true ->
  Forall (fun kv => roundtrips (snd kv)) d.
Proof.
  induction 1 as [| x l Hx Hl IH]; simpl; intros H; constructor;
    apply andb_prop in H; destruct H as [H1 H2]; auto.
Qed.

Lemma dumps_list_text (l : list pyval) (rest : string) :
  Json.dumps (PyList l) ++ rest = String "[" (items l ++ String "]" rest).
Proof.
  change (Json.dumps (PyList l)) with ("[" ++ items l ++ "]").
  cbn [append]. rewrite string_app_assoc. reflexivity.
Qed.

Lemma dumps_dict_text (d : pydict) (rest : string) :
  Json.dumps (PyDict d) ++ rest = String "{" (members d ++ String "}" rest).
Proof.
  change (Json.dumps (PyDict d)) with ("{" ++ members d ++ "}").
  cbn [append]. rewrite string_app_assoc. reflexivity.
Qed.

Lemma dumps_list_length (l : list pyval) :
  String.length (Json.dumps (PyList l)) = S (S (String.length (items l))).
Proof.
  change (Json.dumps (PyList l)) with ("[" ++ items l ++ "]").
  cbn [append String.length]. rewrite string_app_length. simpl. lia.
Qed.

Lemma dumps_dict_length (d : pydict) :
  String.length (Json.dumps (PyDict d)) = S (S (String.length (members d))).
Proof.
  change (Json.dumps (PyDict d)) with ("{" ++ members d ++ "}").
  cbn [append String.length]. rewrite string_app_length. simpl. lia.
Qed.

Lemma dumps_nonempty (v : pyval) : 1 <= String.length (Json.dumps v).
Proof.
  pose proof (dumps_starts v EmptyString) as H.
  rewrite string_app_nil_r in H.
  destruct (Json.dumps v); [discriminate H | simpl; lia].
Qed.

(** Every well-formed value is read back from its text, by induction on the
    value. *)
Theorem parse_dumps (v : pyval) : wf_value v = true -> roundtrips v.
Proof.
  induction v as [| b | z | s | l IH | d IH] using pyval_nested_ind;
    intros Hwf f rest Hf Hrest.
  - destruct f as [| f]; [simpl in Hf; lia | reflexivity].
  - destruct f as [| f]; [destruct b; simpl in Hf; lia | destruct b; reflexivity].
  - pose proof (dumps_nonempty (PyInt z)).
    destruct f as [| f]; [lia |]. exact (parse_int z f rest Hrest).
  - pose proof (dumps_nonempty (PyStr s)).
    destruct f as [| f]; [lia |]. exact (parse_str s f rest).
  - rewrite dumps_list_length in Hf. rewrite dumps_list_text.
    destruct f as [| f]; [lia |].
    destruct l as [| x l]; [reflexivity |].
    rewrite (parse_open_bracket f _ (items_starts x l _)).
    rewrite (parse_elements_items (x :: l)); trivial; try discriminate; try lia.
    apply forall_roundtrips; assumption.
  - rewrite dumps_dict_length in Hf. rewrite dumps_dict_text.
    destruct f as [| f]; [lia |].
    destruct d as [| x d]; [reflexivity |].
    change (wf_value (PyDict (x :: d)))
      with (distinct (map fst (x :: d)) && forallb (fun kv => wf_value (snd kv)) (x :: d))
      in Hwf.
    apply andb_prop in Hwf. destruct Hwf as [Hkeys Hvals].
    rewrite (parse_open_brace f _ (members_starts x d _)).
    rewrite (parse_members_items (x :: d)); try discriminate; try lia.
    + rewrite (dict_of_pairs_distinct _ Hkeys). reflexivity.
    + apply forall_roundtrips_values; assumption.
Qed.

(** [json.loads(json.dumps(v)) == v]. *)
Theorem loads_dumps (v : pyval) :
  wf_value v = true -> Json.loads (Json.dumps v) = Some v.
Proof.
  intros Hwf. unfold Json.loads.
  pose proof (dumps_starts v EmptyString) as Hs. rewrite string_app_nil_r in Hs.
  rewrite (starts_skip _ Hs).
  rewrite <- (string_app_nil_r (Json.dumps v)) at 2.
  rewrite (parse_dumps v Hwf); [reflexivity | lia | reflexivity].
Qed.

(** ** PolicyLinks through the formatter *)

(** C5.  For every non-empty list of PolicyLink mappings in which every
    element has the key [ID] or the key [Name] (each mapping a dict, its keys
    distinct as in any Python dict): [__check_policylinks] returns [True],
    the formatter under that validator returns a text, and [json.loads] of
    the text is the list itself. *)
Theorem policylinks_round_trip {W : Type} (policies : list pydict) (w : W) :
  policies <> [] ->
  (forall p, In p policies -> has_link_key p = true) ->
  wf_value (structures_value policies) = true ->
  __check_policylinks policies = Return true /\
  exists text,
    __create_json_format (Some policies) (pure_check __check_policylinks) w
      = (Return (Some text), w) /\
    Json.loads text = Some (structures_value policies).
Proof.
  intros _ Hkeys Hwf.
  assert (Hcheck : __check_policylinks policies = Return true).
  { apply (check_all_ok has_link_key __check_policylinks).
    - reflexivity.
    - intros x l. reflexivity.
    - exact (all_ok_forallb _ _ Hkeys). }
  split; [exact Hcheck |].
  exists (Json.dumps (structures_value policies)). split.
  - unfold __create_json_format, pure_check, bind, lift, ret.
    rewrite Hcheck. reflexivity.
  - exact (loads_dumps _ Hwf).
Qed.

(** The round trip on [[{'ID': '1', 'Name': 'svc-read'}, {'Name': 'ops'}]]. *)
Lemma policylinks_round_trip_witness :
  __check_policylinks
    [[("ID", PyStr "1"); ("Name", PyStr "svc-read")]; [("Name", PyStr "ops")]]
    = Return true /\
  exists text,
    __create_json_format (W := unit)
      (Some [[("ID", PyStr "1"); ("Name", PyStr "svc-read")]; [("Name", PyStr "ops")]])
      (pure_check __check_policylinks) tt
      = (Return (Some text), tt) /\
    Json.loads text
      = Some (structures_value
                [[("ID", PyStr "1"); ("Name", PyStr "svc-read")]; [("Name", PyStr "ops")]]).
Proof.
  apply (policylinks_round_trip (W := unit)).
  - discriminate.
  - intros p [<- | [<- | []]]; reflexivity.
  - reflexivity.
Defined.

(** The text of that list, and of one whose strings need escapes. *)
Example policylinks_text :
  Json.dumps (structures_value
                [[("ID", PyStr "1"); ("Name", PyStr "svc-read")]; [("Name", PyStr "ops")]])
  = String.concat (String dquote EmptyString)
      ["[{"; "ID"; ": "; "1"; ", "; "Name"; ": "; "svc-read"; "}, {"; "Name"; ": "; "ops"; "}]"].
Proof. reflexivity. Qed.

(** Two dicts that differ only in a repeated key are one Python dict; the
    association list with the repeated key is not well formed, and its text
    reads back as the dict Python would have built. *)
Example repeated_key_reads_back_merged :
  wf_value (PyDict [("ID", PyStr "1"); ("ID", PyStr "2")]) = false /\
  Json.loads (Json.dumps (PyDict [("ID", PyStr "1"); ("ID", PyStr "2")]))
    = Some (PyDict [("ID", PyStr "2")]).
Proof. split; reflexivity. Qed.

(* ================================================================== *)
(** * Part III: further properties of the module *)
(* ================================================================== *)

(** ** More on the methods of [ACL] *)

Section MethodOutcomes.

Context {W : Type} {self : Endpoint W}.

(** X2.  What [info] returns is what the GET returned, untouched, and it is
    truthy: never [None], never empty.  What [info] raises is either what
    the GET raised or [NotFound('ACL not found')] after a GET that returned
    a falsy body; it raises nothing else. *)
Theorem info_outcome_inversion (acl_id : string) (w w' : W) :
  (forall v, ACL.info acl_id w = (Return v, w') ->
     _get ["info"; acl_id] (Some true) w = (Return v, w') /\ truthy v = true) /\
  (forall e, ACL.info acl_id w = (Raise e, w') ->
     _get ["info"; acl_id] (Some true) w = (Raise e, w') \/
     exists v, _get ["info"; acl_id] (Some true) w = (Return v, w') /\
               truthy v = false /\ e = NotFound (PyStr "ACL not found")).
Proof.
  unfold ACL.info, bind, raise, ret.
  destruct (_get ["info"; acl_id] (Some true) w) as [[v | e0] w0] eqn:Hget.
  - destruct (truthy v) eqn:Hv; cbn [negb]; split.
    + intros v' H. injection H as <- <-. split; [reflexivity | exact Hv].
    + intros e H. discriminate H.
    + intros v' H. discriminate H.
    + intros e H. injection H as <- <-. right. exists v. repeat split. exact Hv.
  - split.
    + intros v H. discriminate H.
    + intros e H. injection H as <- <-. left. reflexivity.
Qed.

(** X3.  [destroy] returns only after a response whose status is not 403,
    and then [True] exactly for status 200.  It raises only what the
    adapter's put raised, or [Forbidden] carrying the body of a 403
    response; it raises nothing else. *)
Theorem destroy_outcome_inversion (acl_id : string) (w w' : W) :
  (forall b, ACL.destroy acl_id w = (Return b, w') ->
     exists r, _adapter_put (_build_uri ["destroy"; acl_id]) w = (Return r, w') /\
               status_code r <> 403%Z /\ (b = true <-> status_code r = 200%Z)) /\
  (forall e, ACL.destroy acl_id w = (Raise e, w') ->
     _adapter_put (_build_uri ["destroy"; acl_id]) w = (Raise e, w') \/
     exists r, _adapter_put (_build_uri ["destroy"; acl_id]) w = (Return r, w') /\
               status_code r = 403%Z /\ e = Forbidden (body r)).
Proof.
  unfold ACL.destroy, bind, raise, ret.
  destruct (_adapter_put (_build_uri ["destroy"; acl_id]) w) as [[r | e0] w0] eqn:Hput.
  - destruct (status_code r =? 403)%Z eqn:H403; split.
    + intros b H. discriminate H.
    + intros e H. injection H as <- <-. right. exists r.
      apply Z.eqb_eq in H403. repeat split. exact H403.
    + intros b H. injection H as <- <-. exists r.
      apply Z.eqb_neq in H403. split; [reflexivity | split; [exact H403 |]].
      apply Z.eqb_eq.
    + intros e H. discriminate H.
  - split.
    + intros b H. discriminate H.
    + intros e H. injection H as <- <-. left. reflexivity.
Qed.

(** The subscript [['ID']] after a call of the transport. *)
Lemma subscript_after (c : M W pyval) (w w' : W) :
  (forall e, c w = (Raise e, w') ->
     bind c (fun r => lift (getitem r "ID")) w = (Raise e, w')) /\
  (forall d x, c w = (Return (PyDict d), w') -> lookup "ID" d = Some x ->
     bind c (fun r => lift (getitem r "ID")) w = (Return x, w')) /\
  (forall v, c w = (Return v, w') -> (forall d, v <> PyDict d) ->
     bind c (fun r => lift (getitem r "ID")) w = (Raise TypeError, w')).
Proof.
  unfold bind, lift. repeat split.
  - intros e H. rewrite H. reflexivity.
  - intros d x H Hx. rewrite H. simpl. rewrite Hx. reflexivity.
  - intros v H Hv. rewrite H.
    destruct v; try reflexivity. exfalso. exact (Hv _ eq_refl).
Qed.

(** X4.  [bootstrap] and [clone]: an exception of the transport passes
    through; a mapping with the key [ID] gives the value under it; a body
    that is no mapping ([None], a list, a str) gives the builtin
    [TypeError]. *)
Theorem id_subscript_outcomes (w w' : W) :
  ((forall e, _put_response_body ["bootstrap"] None None w = (Raise e, w') ->
      ACL.bootstrap w = (Raise e, w')) /\
   (forall d x, _put_response_body ["bootstrap"] None None w = (Return (PyDict d), w') ->
      lookup "ID" d = Some x -> ACL.bootstrap w = (Return x, w')) /\
   (forall v, _put_response_body ["bootstrap"] None None w = (Return v, w') ->
      (forall d, v <> PyDict d) -> ACL.bootstrap w = (Raise TypeError, w'))) /\
  (forall acl_id,
   (forall e, _put_response_body ["clone"; acl_id] None None w = (Raise e, w') ->
      ACL.clone acl_id w = (Raise e, w')) /\
   (forall d x, _put_response_body ["clone"; acl_id] None None w = (Return (PyDict d), w') ->
      lookup "ID" d = Some x -> ACL.clone acl_id w = (Return x, w')) /\
   (forall v, _put_response_body ["clone"; acl_id] None None w = (Return v, w') ->
      (forall d, v <> PyDict d) -> ACL.clone acl_id w = (Raise TypeError, w'))).
Proof.
  split; [| intros acl_id]; apply subscript_after.
Qed.

(** X5.  [create] and [update] treat what the transport gives back in the
    same way: exceptions pass through, a mapping with [ID] gives the value
    under it, a body that is no mapping gives [TypeError]. *)
Theorem token_id_subscript_outcomes (w w' : W) :
  (forall name acl_type rules,
   let put := _put_response_body ["create"] (Some [])
     (Some (model.ACL.to_dict (model.ACL.mk None (Some name) acl_type rules))) in
   (forall e, put w = (Raise e, w') -> ACL.create name acl_type rules w = (Raise e, w')) /\
   (forall d x, put w = (Return (PyDict d), w') -> lookup "ID" d = Some x ->
      ACL.create name acl_type rules w = (Return x, w')) /\
   (forall v, put w = (Return v, w') -> (forall d, v <> PyDict d) ->
      ACL.create name acl_type rules w = (Raise TypeError, w'))) /\
  (forall acl_id name acl_type rules,
   let put := _put_response_body ["update"] (Some [])
     (Some (model.ACL.to_dict (model.ACL.mk (Some acl_id) (Some name) acl_type rules))) in
   (forall e, put w = (Raise e, w') -> ACL.update acl_id name acl_type rules w = (Raise e, w')) /\
   (forall d x, put w = (Return (PyDict d), w') -> lookup "ID" d = Some x ->
      ACL.update acl_id name acl_type rules w = (Return x, w')) /\
   (forall v, put w = (Return v, w') -> (forall d, v <> PyDict d) ->
      ACL.update acl_id name acl_type rules w = (Raise TypeError, w'))).
Proof.
  split; intros; apply subscript_after.
Qed.

End MethodOutcomes.

(** [info] against a service answering 200 with a token record, 200 with an
    empty list, and 403. *)
Lemma info_outcome_inversion_witness :
  (_get (Endpoint := scripted 200 (PyDict [("ID", PyStr "abc")])) ["info"; "abc"] (Some true) []
     = (Return (PyDict [("ID", PyStr "abc")]), [Get ["info"; "abc"]]) /\
   truthy (PyDict [("ID", PyStr "abc")]) = true) /\
  (_get (Endpoint := scripted 200 (PyList [])) ["info"; "abc"] (Some true) []
     = (Raise (NotFound (PyStr "ACL not found")), [Get ["info"; "abc"]]) \/
   exists v, _get (Endpoint := scripted 200 (PyList [])) ["info"; "abc"] (Some true) []
               = (Return v, [Get ["info"; "abc"]]) /\
             truthy v = false /\
             NotFound (PyStr "ACL not found") = NotFound (PyStr "ACL not found")).
Proof.
  split.
  - apply (proj1 (info_outcome_inversion
                    (self := scripted 200 (PyDict [("ID", PyStr "abc")])) "abc" [] _)
                 (PyDict [("ID", PyStr "abc")])).
    reflexivity.
  - exact (proj2 (info_outcome_inversion (self := scripted 200 (PyList [])) "abc" []
                    [Get ["info"; "abc"]])
                 (NotFound (PyStr "ACL not found")) eq_refl).
Defined.

(** [destroy] against a service answering 404 and 403. *)
Lemma destroy_outcome_inversion_witness :
  (exists r, _adapter_put (Endpoint := scripted 404 PyNone)
               (_build_uri (Endpoint := scripted 404 PyNone) ["destroy"; "abc"]) []
               = (Return r, [AdapterPut "destroy/abc"]) /\
             status_code r <> 403%Z /\ (false = true <-> status_code r = 200%Z)) /\
  (_adapter_put (Endpoint := scripted 403 (PyStr "denied"))
     (_build_uri (Endpoint := scripted 403 (PyStr "denied")) ["destroy"; "abc"]) []
     = (Raise (Forbidden (PyStr "denied")), [AdapterPut "destroy/abc"]) \/
   exists r, _adapter_put (Endpoint := scripted 403 (PyStr "denied"))
               (_build_uri (Endpoint := scripted 403 (PyStr "denied")) ["destroy"; "abc"]) []
               = (Return r, [AdapterPut "destroy/abc"]) /\
             status_code r = 403%Z /\ Forbidden (PyStr "denied") = Forbidden (body r)).
Proof.
  split.
  - apply (proj1 (destroy_outcome_inversion (self := scripted 404 PyNone) "abc" [] _) false).
    reflexivity.
  - exact (proj2 (destroy_outcome_inversion (self := scripted 403 (PyStr "denied")) "abc" []
                    [AdapterPut "destroy/abc"])
                 (Forbidden (PyStr "denied")) eq_refl).
Defined.

(** [bootstrap] against a service answering 200 with [{'ID': 't1'}] and 403;
    [clone] against one answering 200 with no body. *)
Lemma id_subscript_outcomes_witness :
  ACL.bootstrap (self := scripted 200 (PyDict [("ID", PyStr "t1")])) []
    = (Return (PyStr "t1"), [PutBody ["bootstrap"] None None]) /\
  ACL.bootstrap (self := scripted 403 (PyStr "denied")) []
    = (Raise (Forbidden (PyStr "denied")), [PutBody ["bootstrap"] None None]) /\
  ACL.clone (self := scripted 200 PyNone) "abc" []
    = (Raise TypeError, [PutBody ["clone"; "abc"] None None]).
Proof.
  split; [| split].
  - apply (proj1 (proj2 (proj1 (id_subscript_outcomes
              (self := scripted 200 (PyDict [("ID", PyStr "t1")])) [] _)))
             [("ID", PyStr "t1")]); reflexivity.
  - apply (proj1 (proj1 (id_subscript_outcomes
              (self := scripted 403 (PyStr "denied")) [] _))); reflexivity.
  - apply (proj2 (proj2 (proj2 (id_subscript_outcomes
              (self := scripted 200 PyNone) [] _) "abc")) PyNone);
      [reflexivity | discriminate].
Defined.

(** [create] against a service answering 200 with [{'ID': 't2'}]; [update]
    against one answering 200 with a list. *)
Lemma token_id_subscript_outcomes_witness :
  ACL.create (self := scripted 200 (PyDict [("ID", PyStr "t2")])) "ops" "client" None []
    = (Return (PyStr "t2"),
       [PutBody ["create"] (Some [])
          (Some [("Name", PyStr "ops"); ("Type", PyStr "client")])]) /\
  ACL.update (self := scripted 200 (PyList [PyStr "t2"])) "abc" "ops" "client" None []
    = (Raise TypeError,
       [PutBody ["update"] (Some [])
          (Some [("ID", PyStr "abc"); ("Name", PyStr "ops"); ("Type", PyStr "client")])]).
Proof.
  split.
  - apply (proj1 (proj2 (proj1 (token_id_subscript_outcomes
              (self := scripted 200 (PyDict [("ID", PyStr "t2")])) [] _)
              "ops" "client" None)) [("ID", PyStr "t2")]); reflexivity.
  - apply (proj2 (proj2 (proj2 (token_id_subscript_outcomes
              (self := scripted 200 (PyList [PyStr "t2"])) [] _)
              "abc" "ops" "client" None)) (PyList [PyStr "t2"]));
      [reflexivity | discriminate].
Defined.

(** ** More on the validators *)

Section ValidatorShape.

Variable ok : pydict -> bool.
Variable check : list pydict -> outcome bool.
Hypothesis check_nil : check [] = Return true.
Hypothesis check_cons : forall x l,
  check (x :: l) =
    if negb (ok x) then Raise (ACLPolicyFormatError (str (PyDict x))) else check l.

Lemma check_app (l1 l2 : list pydict) :
  check (l1 ++ l2)%list
  = match check l1 with
    | Raise e => Raise e
    | Return _ => check l2
    end.
Proof.
  induction l1 as [| x l1 IH]; simpl.
  - rewrite check_nil. reflexivity.
  - rewrite !check_cons. destruct (ok x); simpl; [exact IH | reflexivity].
Qed.

Lemma check_accepts_iff (l : list pydict) :
  check l = Return true <-> forallb ok l = true.
Proof.
  split.
  - intros H. destruct (forallb ok l) eqn:E; [reflexivity |].
    destruct (check_first_offender ok check check_cons l E) as (_ & x & _ & _ & _ & _ & Hc).
    rewrite Hc in H. discriminate H.
  - exact (check_all_ok ok check check_nil check_cons l).
Qed.

Lemma check_outcomes (l : list pydict) :
  check l = Return true \/ exists msg, check l = Raise (ACLPolicyFormatError msg).
Proof.
  destruct (forallb ok l) eqn:E.
  - left. exact (check_all_ok ok check check_nil check_cons l E).
  - right.
    destruct (check_first_offender ok check check_cons l E) as (_ & x & _ & _ & _ & _ & Hc).
    exists (str (PyDict x)). exact Hc.
Qed.

End ValidatorShape.

(** X6.  Both validators go through a concatenation in order: if the first
    part fails, its error is the result and the second part is not looked
    at; otherwise the result is that of the second part. *)
Theorem validators_concatenation (l1 l2 : list pydict) :
  __check_policylinks (l1 ++ l2)%list
  = match __check_policylinks l1 with
    | Raise e => Raise e
    | Return _ => __check_policylinks l2
    end /\
  __check_service_identities (l1 ++ l2)%list
  = match __check_service_identities l1 with
    | Raise e => Raise e
    | Return _ => __check_service_identities l2
    end.
Proof.
  split.
  - apply (check_app has_link_key __check_policylinks eq_refl). intros x l. reflexivity.
  - apply (check_app has_service_name __check_service_identities eq_refl).
    intros x l. reflexivity.
Qed.

Lemma contains_keys (k : string) (d : pydict) :
  contains k d = existsb (fun k' => String.eqb k' k) (keys d).
Proof.
  unfold contains, keys. induction d as [| kv d IH]; simpl; [reflexivity |].
  rewrite IH. reflexivity.
Qed.

Lemma forallb_keys (f : list string -> bool) (g : pydict -> bool) (l l' : list pydict) :
  (forall d, g d = f (keys d)) -> map keys l = map keys l' ->
  forallb g l = forallb g l'.
Proof.
  intros Hg. revert l'. induction l as [| d l IH]; intros [| d' l'] H; simpl in *;
    try discriminate; [reflexivity |].
  injection H as Hd Hl. rewrite !Hg, Hd, (IH l' Hl). reflexivity.
Qed.

(** X7.  The validators look at keys, never at values: two lists whose
    mappings have the same keys, position by position, are accepted or
    rejected together. *)
Theorem validators_inspect_keys_only (l l' : list pydict) :
  map keys l = map keys l' ->
  (__check_policylinks l = Return true <-> __check_policylinks l' = Return true) /\
  (__check_service_identities l = Return true <->
   __check_service_identities l' = Return true).
Proof.
  intros H. split.
  - rewrite !(check_accepts_iff has_link_key __check_policylinks eq_refl (fun x l => eq_refl)).
    rewrite (forallb_keys
               (fun ks => existsb (fun k' => String.eqb k' "ID") ks
                          || existsb (fun k' => String.eqb k' "Name") ks)
               has_link_key l l'); [reflexivity | | exact H].
    intros d. unfold has_link_key. rewrite !contains_keys. reflexivity.
  - rewrite !(check_accepts_iff has_service_name __check_service_identities eq_refl
                (fun x l => eq_refl)).
    rewrite (forallb_keys (fun ks => existsb (fun k' => String.eqb k' "ServiceName") ks)
               has_service_name l l'); [reflexivity | | exact H].
    intros d. unfold has_service_name. rewrite contains_keys. reflexivity.
Qed.

(** A PolicyLink whose [ID] is [None] passes as one with a real id does;
    so does a ServiceIdentity whose name is empty. *)
Lemma validators_inspect_keys_only_witness :
  (__check_policylinks [[("ID", PyNone)]] = Return true <->
   __check_policylinks [[("ID", PyStr "c0ffee")]] = Return true) /\
  (__check_service_identities [[("ID", PyNone)]] = Return true <->
   __check_service_identities [[("ID", PyStr "c0ffee")]] = Return true).
Proof.
  apply validators_inspect_keys_only. reflexivity.
Defined.

(** ** More on the payload formatter *)

(** X8.  Under either validator of the module the formatter, given a list
    (empty or not), returns the JSON text of the list or raises
    [ACLPolicyFormatError]: it never returns [None] there, and it leaves the
    world as it found it. *)
Theorem formatter_under_module_validators {W : Type} (l : list pydict) (w : W) :
  (__create_json_format (Some l) (pure_check __check_policylinks) w
     = (Return (Some (Json.dumps (structures_value l))), w) \/
   exists msg,
     __create_json_format (Some l) (pure_check __check_policylinks) w
       = (Raise (ACLPolicyFormatError msg), w)) /\
  (__create_json_format (Some l) (pure_check __check_service_identities) w
     = (Return (Some (Json.dumps (structures_value l))), w) \/
   exists msg,
     __create_json_format (Some l) (pure_check __check_service_identities) w
       = (Raise (ACLPolicyFormatError msg), w)).
Proof.
  unfold __create_json_format, pure_check, bind, lift, ret. split.
  - destruct (check_outcomes has_link_key __check_policylinks eq_refl
                (fun x l => eq_refl) l) as [H | [msg H]]; rewrite H;
      [left; reflexivity | right; exists msg; reflexivity].
  - destruct (check_outcomes has_service_name __check_service_identities eq_refl
                (fun x l => eq_refl) l) as [H | [msg H]]; rewrite H;
      [left; reflexivity | right; exists msg; reflexivity].
Qed.

(** X9.  For every list of ServiceIdentity mappings that all have the key
    [ServiceName] (dict keys distinct, values of any JSON shape), the
    formatter under [__check_service_identities] returns a text that
    [json.loads] reads back as the list. *)
Theorem service_identities_round_trip {W : Type} (service_identities : list pydict) (w : W) :
  (forall s, In s service_identities -> has_service_name s = true) ->
  wf_value (structures_value service_identities) = true ->
  exists text,
    __create_json_format (Some service_identities)
        (pure_check __check_service_identities) w
      = (Return (Some text), w) /\
    Json.loads text = Some (structures_value service_identities).
Proof.
  intros Hkeys Hwf.
  exists (Json.dumps (structures_value service_identities)). split.
  - unfold __create_json_format, pure_check, bind, lift, ret.
    rewrite (check_all_ok has_service_name __check_service_identities eq_refl
               (fun x l => eq_refl) _ (all_ok_forallb _ _ Hkeys)).
    reflexivity.
  - exact (loads_dumps _ Hwf).
Qed.

(** The round trip on
    [[{'ServiceName': 'web', 'Datacenters': ['dc1', 'dc2']}, {'ServiceName': 'db'}]]. *)
Lemma service_identities_round_trip_witness :
  exists text,
    __create_json_format (W := unit)
        (Some [[("ServiceName", PyStr "web");
                ("Datacenters", PyList [PyStr "dc1"; PyStr "dc2"])];
               [("ServiceName", PyStr "db")]])
        (pure_check __check_service_identities) tt
      = (Return (Some text), tt) /\
    Json.loads text
      = Some (structures_value
                [[("ServiceName", PyStr "web");
                  ("Datacenters", PyList [PyStr "dc1"; PyStr "dc2"])];
                 [("ServiceName", PyStr "db")]]).
Proof.
  apply (service_identities_round_trip (W := unit)).
  - intros s [<- | [<- | []]]; reflexivity.
  - reflexivity.
Defined.

(** What the formatter returns for a list, when it returns a text, is the
    JSON text of that list. *)
Lemma formatter_text (W : Type) (l : list pydict) (check : list pydict -> M W bool)
    (w w' : W) (text : string) :
  __create_json_format (Some l) check w = (Return (Some text), w') ->
  text = Json.dumps (structures_value l).
Proof.
  unfold __create_json_format, bind, ret.
  destruct (check l w) as [[[|] | e] w0]; intros H; try discriminate H.
  injection H as <- _. reflexivity.
Qed.

Lemma structures_value_inj (l l' : list pydict) :
  structures_value l = structures_value l' -> l = l'.
Proof.
  unfold structures_value. intros H. injection H as H.
  revert l' H. induction l as [| d l IH]; intros [| d' l'] H; simpl in H;
    try discriminate; [reflexivity |].
  injection H as -> Hl. rewrite (IH l' Hl). reflexivity.
Qed.

(** X10.  Two well-formed lists for which the formatter returns the same
    text, under whatever validators, are the same list. *)
Theorem formatter_text_determines_list {W : Type} (l l' : list pydict)
    (check check' : list pydict -> M W bool) (w0 w1 w0' w1' : W) (text : string) :
  wf_value (structures_value l) = true ->
  wf_value (structures_value l') = true ->
  __create_json_format (Some l) check w0 = (Return (Some text), w1) ->
  __create_json_format (Some l') check' w0' = (Return (Some text), w1') ->
  l = l'.
Proof.
  intros Hwf Hwf' H H'.
  apply formatter_text in H. apply formatter_text in H'.
  apply structures_value_inj.
  pose proof (loads_dumps _ Hwf) as E. pose proof (loads_dumps _ Hwf') as E'.
  rewrite <- H in E. rewrite <- H' in E'. congruence.
Qed.

(** Two different lists never share a text: the formatter on
    [[{'Name': 'a'}]] twice. *)
Lemma formatter_text_determines_list_witness :
  __create_json_format (W := unit) (Some [[("Name", PyStr "a")]])
      (pure_check __check_policylinks) tt
    = (Return (Some (Json.dumps (structures_value [[("Name", PyStr "a")]]))), tt) /\
  __create_json_format (W := unit) (Some [[("Name", PyStr "a")]]) (fun _ => ret true) tt
    = (Return (Some (Json.dumps (structures_value [[("Name", PyStr "a")]]))), tt) /\
  [[("Name", PyStr "a")]] = [[("Name", PyStr "a")]].
Proof.
  split; [reflexivity | split; [reflexivity |]].
  apply (formatter_text_determines_list (W := unit)
           [[("Name", PyStr "a")]] [[("Name", PyStr "a")]]
           (pure_check __check_policylinks) (fun _ => ret true) tt tt tt tt
           (Json.dumps (structures_value [[("Name", PyStr "a")]])));
    reflexivity.
Defined.

(** *** The text is printable ASCII *)

Lemma printable_app (a b : string) :
  all_printable_ascii (a ++ b) = all_printable_ascii a && all_printable_ascii b.
Proof.
  induction a as [| c a IH]; simpl; [reflexivity |].
  rewrite IH, andb_assoc. reflexivity.
Qed.

Lemma escape_char_printable (c : ascii) :
  all_printable_ascii (Json.escape_char c) = true.
Proof. destruct c as [[] [] [] [] [] [] [] []]; reflexivity. Qed.

Lemma escape_printable (s : string) : all_printable_ascii (Json.escape s) = true.
Proof.
  induction s as [| c s IH]; simpl; [reflexivity |].
  rewrite printable_app, escape_char_printable, IH. reflexivity.
Qed.

Lemma dumps_str_printable (s : string) : all_printable_ascii (Json.dumps_str s) = true.
Proof.
  unfold Json.dumps_str. cbn [all_printable_ascii].
  rewrite printable_app, escape_printable. reflexivity.
Qed.

Lemma uint_printable (d : Decimal.uint) :
  all_printable_ascii (NilEmpty.string_of_uint d) = true.
Proof. induction d; simpl; trivial. Qed.

Lemma nilzero_uint_printable (d : Decimal.uint) :
  all_printable_ascii (NilZero.string_of_uint d) = true.
Proof.
  destruct d; [reflexivity | ..];
    match goal with
    | |- all_printable_ascii (NilZero.string_of_uint ?u) = true => exact (uint_printable u)
    end.
Qed.

Lemma int_text_printable (z : Z) : all_printable_ascii (int_text z) = true.
Proof.
  unfold int_text. destruct (Z.to_int z) as [d | d]; cbn [NilZero.string_of_int].
  - apply nilzero_uint_printable.
  - cbn [all_printable_ascii]. rewrite nilzero_uint_printable. reflexivity.
Qed.

Lemma join_comma_printable (parts : list string) :
  Forall (fun s => all_printable_ascii s = true) parts ->
  all_printable_ascii (join_comma parts) = true.
Proof.
  unfold join_comma.
  induction 1 as [| x parts Hx Hparts IH]; [reflexivity |].
  destruct parts as [| y parts]; [exact Hx |].
  change (String.concat ", " (x :: y :: parts))
    with (x ++ ", " ++ String.concat ", " (y :: parts)).
  rewrite !printable_app, Hx, IH. reflexivity.
Qed.

Lemma dumps_printable (v : pyval) : all_printable_ascii (Json.dumps v) = true.
Proof.
  induction v as [| b | z | s | l IH | d IH] using pyval_nested_ind.
  - reflexivity.
  - destruct b; reflexivity.
  - apply int_text_printable.
  - apply dumps_str_printable.
  - change (Json.dumps (PyList l)) with ("[" ++ items l ++ "]").
    rewrite !printable_app. unfold items.
    rewrite join_comma_printable; [reflexivity |].
    apply Forall_map. exact IH.
  - change (Json.dumps (PyDict d)) with ("{" ++ members d ++ "}").
    rewrite !printable_app. unfold members.
    rewrite join_comma_printable; [reflexivity |].
    apply Forall_map. apply (Forall_impl _ (P := fun kv => all_printable_ascii (Json.dumps (snd kv)) = true));
      [| exact IH].
    intros kv Hkv. unfold member.
    rewrite !printable_app, dumps_str_printable, Hkv. reflexivity.
Qed.

(** X11.  Whatever text the formatter returns, under whatever validator, is
    not empty and holds printable ASCII characters only: everything else
    leaves as an escape. *)
Theorem formatter_text_printable {W : Type} (structures : option (list pydict))
    (check : list pydict -> M W bool) (w w' : W) (text : string) :
  __create_json_format structures check w = (Return (Some text), w') ->
  all_printable_ascii text = true /\ text <> EmptyString.
Proof.
  destruct structures as [l |]; [| discriminate].
  intros H. apply formatter_text in H. subst text. split.
  - apply dumps_printable.
  - pose proof (dumps_nonempty (structures_value l)) as Hlen.
    intros E. rewrite E in Hlen. simpl in Hlen. lia.
Qed.

(** The text for [[{'Name': 'caf\xe9\n'}]]: the accented letter and the
    line feed leave as escapes. *)
Lemma formatter_text_printable_witness :
  all_printable_ascii
    (Json.dumps (structures_value
       [[("Name", PyStr (String "c" (String "a" (String "f"
                   (String "233" (String "010" EmptyString))))))]])) = true /\
  Json.dumps (structures_value
       [[("Name", PyStr (String "c" (String "a" (String "f"
                   (String "233" (String "010" EmptyString))))))]]) <> EmptyString.
Proof.
  apply (formatter_text_printable (W := unit)
           (Some [[("Name", PyStr (String "c" (String "a" (String "f"
                      (String "233" (String "010" EmptyString))))))]])
           (pure_check __check_policylinks) tt tt).
  reflexivity.
Defined.
